(** * Outscale inventory plugin: a shallow embedding of [inventory.py]

    The plugin reads a configuration, lists the virtual machines of an
    Outscale account page by page, and registers every machine in the
    Ansible inventory: a host, its variables, and its groups.

    The embedding follows [InventoryModule.parse] statement by statement.
    The Ansible inventory and the Outscale gateway are collaborators the
    plugin only calls; they appear as two interfaces ([Inventory] and
    [Cloud]) with one executable instance each.  Every call the plugin makes
    on the inventory is also journalled, in order, so that statements about
    "what was done to the sink, and when" can be phrased on the journal. *)

From Stdlib Require Import String Ascii List Bool Arith Lia.
Import ListNotations.
Open Scope string_scope.

Set Implicit Arguments.

(** ** Python values *)

(** A value that is either [None] or a [str]: what [dict.get] returns on the
    string-valued fields of a provider record or of the configuration. *)
Inductive pyval : Type :=
| PNone
| PStr (s : string).

(** Python truthiness: [None] and the empty string are false. *)
Definition truthy (v : pyval) : bool :=
  match v with
  | PNone => false
  | PStr s => negb (s =? EmptyString)
  end.

(** [a or b]. *)
Definition py_or (a b : pyval) : pyval := if truthy a then a else b.

(** [v == 'literal']. *)
Definition py_eq (v : pyval) (lit : string) : bool :=
  match v with
  | PNone => false
  | PStr s => s =? lit
  end.

(** [str(v)], also what an f-string interpolates. *)
Definition str (v : pyval) : string :=
  match v with
  | PNone => "None"
  | PStr s => s
  end.

(** [d.get(key)] on an optional field: an absent key reads as [None]. *)
Definition get (field : option pyval) : pyval :=
  match field with
  | Some v => v
  | None => PNone
  end.

(** [d.get(key, default)]: the default replaces an absent key only; a key
    that is present with value [None] reads as [None]. *)
Definition get_default {A : Type} (field : option A) (default : A) : A :=
  match field with
  | Some v => v
  | None => default
  end.

(** ** Dictionaries with string keys

    A Python [dict] keeps insertion order; assigning to an existing key
    overwrites the value at the key's original position. *)
Section Dict.
Variable V : Type.

Definition dict := list (string * V).

Fixpoint dict_get (k : string) (d : dict) : option V :=
  match d with
  | [] => None
  | (k', v) :: d' => if k' =? k then Some v else dict_get k d'
  end.

Fixpoint dict_set (k : string) (v : V) (d : dict) : dict :=
  match d with
  | [] => [(k, v)]
  | (k', v') :: d' =>
      if k' =? k then (k', v) :: d' else (k', v') :: dict_set k v d'
  end.

Definition dict_keys (d : dict) : list string := map fst d.
End Dict.

(** ** Provider records *)

(** One element of a record's ['Tags'] list.  ['Key'] is always there;
    ['Value'] may be missing ([None] here), and when present it is a string
    or [null]. *)
Record Tag : Type := mkTag {
  Key : string;
  Value : option pyval
}.

Record Placement : Type := mkPlacement {
  SubregionName : option pyval
}.

(** A VM record as [ReadVms] returns it.  A field that the response leaves
    out is [None]; [Tags] left out is the empty list. *)
Record Vm : Type := mkVm {
  VmId : option pyval;
  State : option pyval;
  VmType : option pyval;
  PublicIp : option pyval;
  PrivateIp : option pyval;
  Placement_ : option Placement;
  Tags : list Tag
}.

(** [vm.get('Placement', {}).get('SubregionName')] *)
Definition vm_subregion (vm : Vm) : pyval :=
  get (SubregionName (get_default (Placement_ vm) (mkPlacement None))).

(** [{tag['Key']: tag['Value'] for tag in vm.get('Tags', []) if 'Value' in tag}] *)
Definition flatten_tags (tags : list Tag) : dict pyval :=
  fold_left
    (fun d tag =>
       match Value tag with
       | Some v => dict_set (Key tag) v d
       | None => d
       end)
    tags [].

(** ** Group-name sanitisation *)

(** [s.replace(old, new)] for one-character [old] and [new]. *)
Fixpoint replace (old new : ascii) (s : string) : string :=
  match s with
  | EmptyString => EmptyString
  | String c s' =>
      String (if Ascii.eqb c old then new else c) (replace old new s')
  end.

(** [str(value or '').replace(":", "_").replace("/", "_").replace(" ", "_")] *)
Definition safe_value (value : pyval) : string :=
  replace " " "_" (replace "/" "_" (replace ":" "_" (str (py_or value (PStr EmptyString))))).

(** [f'tag_{key}_{safe_value}'] *)
Definition tag_group_name (key : string) (value : pyval) : string :=
  "tag_" ++ key ++ "_" ++ safe_value value.

(** ** Values stored in the inventory *)

(** What the plugin passes to [set_variable]: a string or [None], or the
    flattened tag dictionary. *)
Inductive value : Type :=
| VScalar (v : pyval)
| VDict (d : dict pyval).

(** [value is None] *)
Definition is_None (v : value) : bool :=
  match v with
  | VScalar PNone => true
  | _ => false
  end.

(** ** Configuration, environment and declared options *)

Definition Filters := dict (list string).
Definition Compose := dict string.
Definition Groups := dict string.
Definition KeyedGroups := list (dict string).

(** The dictionary [_read_config_data] returns: the keys the user wrote.
    An option left out of the file is [None]. *)
Record Config : Type := mkConfig {
  cfg_access_key : option pyval;
  cfg_secret_key : option pyval;
  cfg_region : option pyval;
  cfg_filters : option Filters;
  cfg_hostname_variable : option pyval;
  cfg_ip_preference : option pyval;
  cfg_group_by : option (list string);
  cfg_compose : option Compose;
  cfg_groups : option Groups;
  cfg_keyed_groups : option KeyedGroups;
  cfg_strict : option bool
}.

(** The process environment; [os.getenv] gives [None] for an unset name. *)
Definition Env := dict string.

Definition os_getenv (name : string) (env : Env) : pyval :=
  match dict_get name env with
  | Some s => PStr s
  | None => PNone
  end.

(** The entries of [DOCUMENTATION] for the string-valued options: the
    declared default, the environment variables and the choices. *)
Record OptionDoc : Type := mkOptionDoc {
  doc_default : option string;
  doc_env : list string;
  doc_choices : list string
}.

Definition DOCUMENTATION : dict OptionDoc :=
  [ ("access_key", mkOptionDoc None ["OSC_ACCESS_KEY"] []);
    ("secret_key", mkOptionDoc None ["OSC_SECRET_KEY"] []);
    ("region", mkOptionDoc (Some "eu-west-2") ["OSC_REGION"] []);
    ("hostname_variable",
      mkOptionDoc (Some "tag_Name") []
        ["vm_id"; "public_ip"; "private_ip"; "tag_Name"]);
    ("ip_preference",
      mkOptionDoc (Some "prefer_public") []
        ["prefer_public"; "public_only"; "private_only"]) ].

(** The default [DOCUMENTATION] declares for an option. *)
Definition declared_default (option_name : string) : option string :=
  match dict_get option_name DOCUMENTATION with
  | Some d => doc_default d
  | None => None
  end.

(** The local variables [parse] binds from the configuration and the
    environment (lines 101 to 113). *)
Record Options : Type := mkOptions {
  access_key : pyval;
  secret_key : pyval;
  region : pyval;
  filters : Filters;
  hostname_variable : pyval;
  ip_preference : pyval;
  group_by : list string;
  compose : Compose;
  groups : Groups;
  keyed_groups : KeyedGroups;
  strict : bool
}.

Definition read_options (env : Env) (config : Config) : Options :=
  {| access_key := py_or (get (cfg_access_key config)) (os_getenv "OSC_ACCESS_KEY" env);
     secret_key := py_or (get (cfg_secret_key config)) (os_getenv "OSC_SECRET_KEY" env);
     region := py_or (get_default (cfg_region config) (PStr "eu-west-2"))
                     (os_getenv "OSC_REGION" env);
     filters := get_default (cfg_filters config) [];
     hostname_variable := get_default (cfg_hostname_variable config) (PStr "tag_Name");
     ip_preference := get_default (cfg_ip_preference config) (PStr "public_or_private");
     group_by := get_default (cfg_group_by config)
                   ["tags"; "region"; "subregion"; "vm_type"; "state"];
     compose := get_default (cfg_compose config) [];
     groups := get_default (cfg_groups config) [];
     keyed_groups := get_default (cfg_keyed_groups config) [];
     strict := get_default (cfg_strict config) false |}.

(** ** Exceptions and outcomes *)

Inductive message : Type :=
| MissingRequiredLib (library : string)
| Msg (text : string).

Inductive exn : Type :=
| AnsibleError (msg : message)
| AnsibleOptionsError (option_name : string) (value : pyval)
| UnboundLocalError (variable : string)
| ProviderError (detail : string).

(** How a piece of the plugin ends: it returns, it raises, or the model's
    bound on the number of [while True] iterations was reached. *)
Inductive outcome (A : Type) : Type :=
| Ok (a : A)
| Raise (e : exn)
| OutOfFuel.
Arguments Raise {A} e.
Arguments OutOfFuel {A}.

(** ** The two collaborators *)

(** The keyword arguments of [Gateway(...)]: a key is set only when its
    value is truthy. *)
Record GatewayParams : Type := mkGatewayParams {
  gw_access_key : option pyval;
  gw_secret_key : option pyval;
  gw_region : option pyval
}.

(** The keyword arguments of [ReadVms]. *)
Record ReadVmsParams : Type := mkReadVmsParams {
  Filters_ : Filters;
  NextPageToken : option pyval
}.

(** One page of the provider's answer. *)
Record Response : Type := mkResponse {
  resp_Vms : option (list Vm);
  resp_NextPageToken : option pyval
}.

(** The provider, seen through a gateway built from [GatewayParams]: a
    call returns a page or raises, and may change the provider's state. *)
Class Cloud (C : Type) : Type := {
  ReadVms : GatewayParams -> ReadVmsParams -> C -> (exn + Response) * C
}.

(** The inventory object and the [Constructable] helpers.  The first five
    operations are those of Ansible's inventory; on the arguments the plugin
    passes (a host just added, a non-empty group name just added) they do
    not raise.  The three helpers may raise, depending on [strict]. *)
Class Inventory (S : Type) : Type := {
  add_host : string -> S -> S;
  set_variable : string -> string -> value -> S -> S;
  (** [inventory.get_host(host).get_vars().get(var)] *)
  host_var : string -> string -> S -> value;
  add_group : string -> S -> S;
  add_child : string -> string -> S -> S;
  _set_composite_vars :
    Compose -> dict value -> string -> bool -> S -> option exn * S;
  _add_host_to_composed_groups :
    Groups -> dict value -> string -> bool -> S -> option exn * S;
  _add_host_to_keyed_groups :
    KeyedGroups -> dict value -> string -> bool -> S -> option exn * S
}.

(** The calls the plugin makes on the inventory, as journalled. *)
Inductive call : Type :=
| AddHost (host : string)
| SetVariable (host var : string) (v : value)
| SetCompositeVars (c : Compose) (host_vars : dict value) (host : string) (strict : bool)
| AddHostToComposedGroups (g : Groups) (host_vars : dict value) (host : string) (strict : bool)
| AddHostToKeyedGroups (k : KeyedGroups) (host_vars : dict value) (host : string) (strict : bool)
| AddGroup (group : string)
| AddChild (group host : string).

(** ** The plugin *)

Section Plugin.
Context {C Inv : Type} {cloud_ops : Cloud C} {inventory_ops : Inventory Inv}.

(** Everything a run can read or change: the provider, the inventory,
    and the journal of calls made on the inventory, oldest first. *)
Record state : Type := mkState {
  cloud : C;
  inventory : Inv;
  journal : list call
}.

(** A computation reads and changes the state and ends in an outcome; the
    state it leaves behind is kept also when it raises. *)
Definition M (A : Type) : Type := state -> outcome A * state.

Definition ret {A : Type} (a : A) : M A := fun st => (Ok a, st).

Definition raise {A : Type} (e : exn) : M A := fun st => (Raise e, st).

Definition bind {A B : Type} (m : M A) (k : A -> M B) : M B :=
  fun st =>
    match m st with
    | (Ok a, st') => k a st'
    | (Raise e, st') => (Raise e, st')
    | (OutOfFuel, st') => (OutOfFuel, st')
    end.

Notation "x <- m ;; k" := (bind m (fun x => k))
  (at level 61, m at next level, right associativity).
Notation "m ;; k" := (bind m (fun _ => k))
  (at level 61, right associativity).

Definition lift {A : Type} (r : exn + A) : M A :=
  match r with
  | inl e => raise e
  | inr a => ret a
  end.

(** [if cond: body] *)
Definition when (cond : bool) (body : M unit) : M unit :=
  if cond then body else ret tt.

(** [for x in xs: body] *)
Fixpoint for_each {A : Type} (xs : list A) (body : A -> M unit) : M unit :=
  match xs with
  | [] => ret tt
  | x :: xs' => body x ;; for_each xs' body
  end.

(** A call on the inventory that returns. *)
Definition inventory_call (c : call) (f : Inv -> Inv) : M unit :=
  fun st =>
    (Ok tt, mkState (cloud st) (f (inventory st)) (journal st ++ [c])%list).

(** A call on a [Constructable] helper, which may raise. *)
Definition constructable_call (c : call) (f : Inv -> option exn * Inv) : M unit :=
  fun st =>
    let (raised, inv) := f (inventory st) in
    let st' := mkState (cloud st) inv (journal st ++ [c])%list in
    match raised with
    | Some e => (Raise e, st')
    | None => (Ok tt, st')
    end.

(** [gw.ReadVms] with the keyword arguments [params] *)
Definition read_vms (gw : GatewayParams) (params : ReadVmsParams) : M Response :=
  fun st =>
    let (reply, c) := ReadVms gw params (cloud st) in
    let st' := mkState c (inventory st) (journal st) in
    match reply with
    | inl e => (Raise e, st')
    | inr response => (Ok response, st')
    end.

(** *** Fetch all VMs with pagination (lines 129 to 140)

    [fuel] bounds the iterations of [while True]. *)
Fixpoint fetch_loop (fuel : nat) (gw : GatewayParams) (params : ReadVmsParams)
    (next_token : pyval) (vms : list Vm) : M (list Vm) :=
  match fuel with
  | O => fun st => (OutOfFuel, st)
  | S fuel' =>
      let params :=
        if truthy next_token
        then mkReadVmsParams (Filters_ params) (Some next_token)
        else params in
      response <- read_vms gw params ;;
      let vms := (vms ++ get_default (resp_Vms response) [])%list in
      let next_token := get (resp_NextPageToken response) in
      if negb (truthy next_token)
      then ret vms
      else fetch_loop fuel' gw params next_token vms
  end.

Definition fetch_vms (fuel : nat) (gw : GatewayParams) (filters : Filters)
    : M (list Vm) :=
  fetch_loop fuel gw (mkReadVmsParams filters None) PNone [].

(** *** Determine hostname (lines 144 to 153)

    [hostname] is a local of [parse]: an iteration in which no branch
    assigns it leaves it as the previous iteration left it, unbound
    ([None]) on the first. *)
Definition determine_hostname (hostname_variable : pyval) (vm : Vm)
    (hostname : option pyval) : option pyval :=
  if py_eq hostname_variable "vm_id" then Some (get (VmId vm))
  else if py_eq hostname_variable "public_ip" then Some (get (PublicIp vm))
  else if py_eq hostname_variable "private_ip" then Some (get (PrivateIp vm))
  else if py_eq hostname_variable "tag_Name" then
    let tags := flatten_tags (Tags vm) in
    Some (get_default (dict_get "Name" tags) (get (VmId vm)))
  else hostname.

(** *** Set ansible_host based on ip_preference (lines 161 to 170)

    The choice reads the record only, so it is a function that returns
    the address or the exception; [register_vm] raises the latter. *)
Definition select_ansible_host (ip_preference : pyval) (vm : Vm) : exn + pyval :=
  let public_ip := get (PublicIp vm) in
  let private_ip := get (PrivateIp vm) in
  if py_eq ip_preference "public_only" then
    inr (if truthy public_ip then public_ip else PNone)
  else if py_eq ip_preference "private_only" then
    inr (if truthy private_ip then private_ip else PNone)
  else if py_eq ip_preference "prefer_public" then
    inr (if truthy public_ip then public_ip else private_ip)
  else
    inl (AnsibleError
           (Msg ("Invalid parameter value for ip_preference: " ++ str ip_preference))).

(** *** Build host_vars dict from set variables (lines 183 to 187) *)
Definition host_var_names : list string :=
  ["ansible_host"; "outscale_vm_id"; "outscale_state"; "outscale_vm_type";
   "outscale_subregion"; "outscale_tags"].

Definition read_host_vars (hostname : string) (inv : Inv) : dict value :=
  fold_left
    (fun host_vars var =>
       let value := host_var hostname var inv in
       if negb (is_None value) then dict_set var value host_vars else host_vars)
    host_var_names [].

Definition build_host_vars (hostname : string) : M (dict value) :=
  fun st => (Ok (read_host_vars hostname (inventory st)), st).

(** *** Add to groups (lines 195 to 222) *)
Definition join_group (group hostname : string) : M unit :=
  inventory_call (AddGroup group) (add_group group) ;;
  inventory_call (AddChild group hostname) (add_child group hostname).

Definition contains (x : string) (xs : list string) : bool :=
  existsb (String.eqb x) xs.

Definition group_by_tags (vm : Vm) (hostname : string) : M unit :=
  for_each (flatten_tags (Tags vm))
    (fun item => join_group (tag_group_name (fst item) (snd item)) hostname).

Definition add_to_groups (o : Options) (vm : Vm) (hostname : string) : M unit :=
  when (contains "tags" (group_by o)) (group_by_tags vm hostname) ;;
  when (contains "region" (group_by o) && truthy (region o))
    (join_group (str (region o)) hostname) ;;
  when (contains "subregion" (group_by o))
    (let subregion := vm_subregion vm in
     when (truthy subregion) (join_group (str subregion) hostname)) ;;
  when (contains "vm_type" (group_by o))
    (let vm_type := get (VmType vm) in
     when (truthy vm_type) (join_group ("vm_type_" ++ str vm_type) hostname)) ;;
  when (contains "state" (group_by o))
    (let state := get (State vm) in
     when (truthy state) (join_group ("state_" ++ str state) hostname)).

(** *** Set other variables (lines 176 to 180) *)
Definition set_var (hostname var : string) (v : value) : M unit :=
  inventory_call (SetVariable hostname var v) (set_variable hostname var v).

Definition set_other_variables (vm : Vm) (hostname : string) : M unit :=
  set_var hostname "outscale_vm_id" (VScalar (get (VmId vm))) ;;
  set_var hostname "outscale_state" (VScalar (get (State vm))) ;;
  set_var hostname "outscale_vm_type" (VScalar (get (VmType vm))) ;;
  set_var hostname "outscale_subregion" (VScalar (vm_subregion vm)) ;;
  set_var hostname "outscale_tags" (VDict (flatten_tags (Tags vm))).

(** *** Apply Constructable features (lines 190 to 192) *)
Definition apply_constructable (o : Options) (host_vars : dict value)
    (hostname : string) : M unit :=
  constructable_call
    (SetCompositeVars (compose o) host_vars hostname (strict o))
    (_set_composite_vars (compose o) host_vars hostname (strict o)) ;;
  constructable_call
    (AddHostToComposedGroups (groups o) host_vars hostname (strict o))
    (_add_host_to_composed_groups (groups o) host_vars hostname (strict o)) ;;
  constructable_call
    (AddHostToKeyedGroups (keyed_groups o) host_vars hostname (strict o))
    (_add_host_to_keyed_groups (keyed_groups o) host_vars hostname (strict o)).

(** *** The body of [for vm in vms] for a record whose hostname is truthy
    (lines 157 to 222) *)
Definition register_vm (o : Options) (vm : Vm) (hostname : string) : M unit :=
  inventory_call (AddHost hostname) (add_host hostname) ;;
  ansible_host <- lift (select_ansible_host (ip_preference o) vm) ;;
  when (truthy ansible_host)
    (set_var hostname "ansible_host" (VScalar ansible_host)) ;;
  set_other_variables vm hostname ;;
  host_vars <- build_host_vars hostname ;;
  apply_constructable o host_vars hostname ;;
  add_to_groups o vm hostname.

(** *** One iteration of [for vm in vms] (lines 143 to 222); it returns
    the local [hostname] as the iteration leaves it.  A truthy hostname
    is a non-empty string, which [str] gives back unchanged. *)
Definition process_vm (o : Options) (hostname : option pyval) (vm : Vm)
    : M (option pyval) :=
  let hostname := determine_hostname (hostname_variable o) vm hostname in
  match hostname with
  | None => raise (UnboundLocalError "hostname")
  | Some h =>
      if negb (truthy h)
      then ret hostname
      else register_vm o vm (str h) ;; ret hostname
  end.

Fixpoint process_vms (o : Options) (hostname : option pyval) (vms : list Vm)
    : M unit :=
  match vms with
  | [] => ret tt
  | vm :: vms' =>
      hostname' <- process_vm o hostname vm ;;
      process_vms o hostname' vms'
  end.

(** *** Initialize Gateway (lines 120 to 127) *)
Definition truthy_only (v : pyval) : option pyval :=
  if truthy v then Some v else None.

Definition gateway_params (o : Options) : GatewayParams :=
  {| gw_access_key := truthy_only (access_key o);
     gw_secret_key := truthy_only (secret_key o);
     gw_region := truthy_only (region o) |}.

Definition missing_credentials : message :=
  Msg "Outscale access_key and secret_key must be provided via the configuration file or environment variables (OSC_ACCESS_KEY, OSC_SECRET_KEY).".

(** *** [InventoryModule.parse], from the configuration dictionary on *)
Definition parse (fuel : nat) (HAS_OSC_SDK : bool) (env : Env) (config : Config)
    : M unit :=
  if negb HAS_OSC_SDK
  then raise (AnsibleError (MissingRequiredLib "osc-sdk-python"))
  else
    let o := read_options env config in
    if negb (truthy (access_key o)) || negb (truthy (secret_key o))
    then raise (AnsibleError missing_credentials)
    else
      let gw := gateway_params o in
      vms <- fetch_vms fuel gw (filters o) ;;
      process_vms o None vms.
End Plugin.

Arguments state : clear implicits.
Arguments M : clear implicits.

(** ** An inventory kept in memory

    Hosts and groups in order of creation, the variables of every host,
    and the membership pairs (group, host).  Its [Constructable] helpers
    stand for expressions that cannot be evaluated: under [strict] a helper
    with something to evaluate raises, otherwise it changes nothing. *)
Record MemInventory : Type := mkMemInventory {
  hosts : list string;
  vars : dict (dict value);
  group_names : list string;
  children : list (string * string)
}.

Definition empty_inventory : MemInventory := mkMemInventory [] [] [] [].

Definition add_once (x : string) (xs : list string) : list string :=
  if existsb (String.eqb x) xs then xs else (xs ++ [x])%list.

Definition mem_add_host (host : string) (inv : MemInventory) : MemInventory :=
  mkMemInventory (add_once host (hosts inv)) (vars inv) (group_names inv) (children inv).

Definition mem_set_variable (host var : string) (v : value) (inv : MemInventory)
    : MemInventory :=
  let host_dict := get_default (dict_get host (vars inv)) [] in
  mkMemInventory (hosts inv) (dict_set host (dict_set var v host_dict) (vars inv))
    (group_names inv) (children inv).

Definition mem_host_var (host var : string) (inv : MemInventory) : value :=
  match dict_get host (vars inv) with
  | Some host_dict => get_default (dict_get var host_dict) (VScalar PNone)
  | None => VScalar PNone
  end.

Definition mem_add_group (group : string) (inv : MemInventory) : MemInventory :=
  mkMemInventory (hosts inv) (vars inv) (add_once group (group_names inv)) (children inv).

Definition mem_add_child (group host : string) (inv : MemInventory) : MemInventory :=
  let listed (p : string * string) := (fst p =? group) && (snd p =? host) in
  mkMemInventory (hosts inv) (vars inv) (group_names inv)
    (if existsb listed (children inv) then children inv
     else (children inv ++ [(group, host)])%list).

Definition mem_constructable {A : Type} (what : string) (entries : list A)
    (host_vars : dict value) (host : string) (strict : bool) (inv : MemInventory)
    : option exn * MemInventory :=
  match entries with
  | [] => (None, inv)
  | _ :: _ =>
      if strict
      then (Some (AnsibleError (Msg ("Could not evaluate " ++ what ++ " for " ++ host))), inv)
      else (None, inv)
  end.

#[export] Instance MemInventory_ops : Inventory MemInventory := {|
  add_host := mem_add_host;
  set_variable := mem_set_variable;
  host_var := mem_host_var;
  add_group := mem_add_group;
  add_child := mem_add_child;
  _set_composite_vars := mem_constructable "compose";
  _add_host_to_composed_groups := mem_constructable "groups";
  _add_host_to_keyed_groups := mem_constructable "keyed_groups"
|}.

(** ** A provider that answers from a script

    The pages still to be served and the requests received so far, oldest
    first.  A call made when no page is left fails. *)
Record Script : Type := mkScript {
  pages : list Response;
  requests : list (GatewayParams * ReadVmsParams)
}.

Definition script_ReadVms (gw : GatewayParams) (params : ReadVmsParams) (c : Script)
    : (exn + Response) * Script :=
  let received := (requests c ++ [(gw, params)])%list in
  match pages c with
  | [] => (inl (ProviderError "no page left"), mkScript [] received)
  | page :: rest => (inr page, mkScript rest received)
  end.

#[export] Instance Script_ops : Cloud Script := {| ReadVms := script_ReadVms |}.

(** A run against the scripted provider and an empty in-memory inventory. *)
Definition fresh (script : list Response) : state Script MemInventory :=
  mkState (mkScript script []) empty_inventory [].

Module Examples.
(** The record of the specification's first example. *)
Definition web1 : Vm :=
  {| VmId := Some (PStr "i-1");
     State := Some (PStr "running");
     VmType := None;
     PublicIp := Some (PStr "1.2.3.4");
     PrivateIp := None;
     Placement_ := None;
     Tags := [mkTag "Name" (Some (PStr "web:1"))] |}.

Definition credentials : Config :=
  {| cfg_access_key := Some (PStr "AK");
     cfg_secret_key := Some (PStr "SK");
     cfg_region := None;
     cfg_filters := None;
     cfg_hostname_variable := None;
     cfg_ip_preference := None;
     cfg_group_by := None;
     cfg_compose := None;
     cfg_groups := None;
     cfg_keyed_groups := None;
     cfg_strict := None |}.

Definition with_policy (policy : string) (dimensions : list string) : Config :=
  {| cfg_access_key := Some (PStr "AK");
     cfg_secret_key := Some (PStr "SK");
     cfg_region := None;
     cfg_filters := None;
     cfg_hostname_variable := None;
     cfg_ip_preference := Some (PStr policy);
     cfg_group_by := Some dimensions;
     cfg_compose := None;
     cfg_groups := None;
     cfg_keyed_groups := None;
     cfg_strict := None |}.

Definition one_page (vms : list Vm) : list Response :=
  [mkResponse (Some vms) None].

(** A record without any address and without a ["Name"] tag or [VmId]. *)
Definition nameless : Vm :=
  {| VmId := None;
     State := Some (PStr "stopped");
     VmType := Some (PStr "tinav5.c1r1p2");
     PublicIp := None;
     PrivateIp := None;
     Placement_ := Some (mkPlacement (Some (PStr "eu-west-2a")));
     Tags := [mkTag "env" (Some (PStr "prod"))] |}.

(** Three pages; the last one answers with a null token. *)
Definition page (ids : list string) (token : option pyval) : Response :=
  mkResponse
    (Some (map (fun id => mkVm (Some (PStr id)) None None None None None []) ids))
    token.

Definition three_pages : list Response :=
  [page ["i-1"; "i-2"] (Some (PStr "t1"));
   page ["i-3"] (Some (PStr "t2"));
   page ["i-4"] (Some PNone)].

Definition gateway : GatewayParams :=
  mkGatewayParams (Some (PStr "AK")) (Some (PStr "SK")) (Some (PStr "eu-west-2")).

Definition with_strategy (strategy : string) (strictness : bool) : Config :=
  {| cfg_access_key := Some (PStr "AK");
     cfg_secret_key := Some (PStr "SK");
     cfg_region := None;
     cfg_filters := None;
     cfg_hostname_variable := Some (PStr strategy);
     cfg_ip_preference := Some (PStr "prefer_public");
     cfg_group_by := None;
     cfg_compose := Some [("role", "tags.role")];
     cfg_groups := None;
     cfg_keyed_groups := None;
     cfg_strict := Some strictness |}.
End Examples.

(** ** Vocabulary of the statements *)

(** The tag list that spells out a flattened dictionary again. *)
Definition as_tags (d : dict pyval) : list Tag :=
  map (fun item => mkTag (fst item) (Some (snd item))) d.

(** The (key, value) pairs of the tags that carry a value, in list order. *)
Definition valued_pairs (tags : list Tag) : list (string * pyval) :=
  flat_map
    (fun tag =>
       match Value tag with
       | Some v => [(Key tag, v)]
       | None => []
       end)
    tags.

(** The character that takes the place of [c] in a group name. *)
Definition sanitized (c : ascii) : ascii :=
  if (Ascii.eqb c ":" || Ascii.eqb c "/" || Ascii.eqb c " ")%bool then "_"%char else c.

(** The name a record gets under a hostname strategy, read with the local
    [hostname] still unbound. *)
Definition resolved_hostname (hostname_variable : pyval) (vm : Vm) : option pyval :=
  determine_hostname hostname_variable vm None.

(** The record has a usable hostname [h]. *)
Definition resolvable (hostname_variable : pyval) (vm : Vm) (h : pyval) : Prop :=
  resolved_hostname hostname_variable vm = Some h /\ truthy h = true.

(** The chosen source of the record is empty or absent. *)
Definition unresolvable (hostname_variable : pyval) (vm : Vm) : Prop :=
  exists h, resolved_hostname hostname_variable vm = Some h /\ truthy h = false.

(** The four recognised hostname strategies and the three address policies. *)
Definition hostname_choices : list pyval :=
  [PStr "vm_id"; PStr "public_ip"; PStr "private_ip"; PStr "tag_Name"].

Definition ip_choices : list pyval :=
  [PStr "public_only"; PStr "private_only"; PStr "prefer_public"].

Definition invalid_ip_preference (ip_preference : pyval) : exn :=
  AnsibleError (Msg ("Invalid parameter value for ip_preference: " ++ str ip_preference)).

(** Kinds of journalled calls. *)
Definition is_constructable_call (c : call) : bool :=
  match c with
  | SetCompositeVars _ _ _ _
  | AddHostToComposedGroups _ _ _ _
  | AddHostToKeyedGroups _ _ _ _ => true
  | _ => false
  end.

Definition is_grouping_call (c : call) : bool :=
  match c with
  | AddGroup _ | AddChild _ _ => true
  | _ => false
  end.

Definition is_variable_call (c : call) : bool :=
  match c with
  | SetVariable _ _ _ => true
  | _ => false
  end.

(** No grouping call comes after a [Constructable] call: the helpers run
    once the grouping is over. *)
Fixpoint constructable_after_grouping (j : list call) : bool :=
  match j with
  | [] => true
  | c :: j' =>
      (if is_constructable_call c
       then forallb (fun c' => negb (is_grouping_call c')) j'
       else true)
      && constructable_after_grouping j'
  end.

(** The variables the mapper writes for a record, in order, once the
    address policy chose [ansible_host]. *)
Definition written_variables (vm : Vm) (ansible_host : pyval) : list (string * value) :=
  ((if truthy ansible_host then [("ansible_host", VScalar ansible_host)] else [])
   ++ [("outscale_vm_id", VScalar (get (VmId vm)));
       ("outscale_state", VScalar (get (State vm)));
       ("outscale_vm_type", VScalar (get (VmType vm)));
       ("outscale_subregion", VScalar (vm_subregion vm));
       ("outscale_tags", VDict (flatten_tags (Tags vm)))])%list.

(** The inventory once the host is added and its variables are written. *)
Definition mapped_inventory {Inv : Type} {ops : Inventory Inv}
    (vm : Vm) (ansible_host : pyval) (hostname : string) (inv : Inv) : Inv :=
  fold_left (fun inv item => set_variable hostname (fst item) (snd item) inv)
    (written_variables vm ansible_host) (add_host hostname inv).

Definition mapper_journal (vm : Vm) (ansible_host : pyval) (hostname : string)
    : list call :=
  AddHost hostname
  :: map (fun item => SetVariable hostname (fst item) (snd item))
       (written_variables vm ansible_host).

(** The two calls that put a host in a group. *)
Definition joins (group hostname : string) : list call :=
  [AddGroup group; AddChild group hostname].

(** The calls of the "tags" dimension. *)
Definition tag_joins (vm : Vm) (hostname : string) : list call :=
  flat_map (fun item => joins (tag_group_name (fst item) (snd item)) hostname)
    (flatten_tags (Tags vm)).

(** The calls of all enabled dimensions, in the order of the source. *)
Definition dimension_joins (o : Options) (vm : Vm) (hostname : string) : list call :=
  ((if contains "tags" (group_by o) then tag_joins vm hostname else [])
   ++ (if contains "region" (group_by o) && truthy (region o)
       then joins (str (region o)) hostname else [])
   ++ (if contains "subregion" (group_by o)
       then if truthy (vm_subregion vm)
            then joins (str (vm_subregion vm)) hostname else []
       else [])
   ++ (if contains "vm_type" (group_by o)
       then if truthy (get (VmType vm))
            then joins ("vm_type_" ++ str (get (VmType vm))) hostname else []
       else [])
   ++ (if contains "state" (group_by o)
       then if truthy (get (State vm))
            then joins ("state_" ++ str (get (State vm))) hostname else []
       else []))%list.

(** The three [Constructable] calls, all with the same [host_vars]. *)
Definition constructable_calls (o : Options) (host_vars : dict value)
    (hostname : string) : list call :=
  [SetCompositeVars (compose o) host_vars hostname (strict o);
   AddHostToComposedGroups (groups o) host_vars hostname (strict o);
   AddHostToKeyedGroups (keyed_groups o) host_vars hostname (strict o)].

(** [m] returns, leaves the provider alone and journals exactly [l]. *)
Definition journals {C Inv : Type} (m : M C Inv unit) (l : list call) : Prop :=
  forall st, exists inv,
    m st = (Ok tt, mkState (cloud st) inv (journal st ++ l)%list).

(** The request that follows a page: the same filters, the page's token. *)
Definition next_request (gw : GatewayParams) (filters : Filters) (page : Response)
    : GatewayParams * ReadVmsParams :=
  (gw, mkReadVmsParams filters (Some (get (resp_NextPageToken page)))).

(** The pages of a script flattened into one list of records. *)
Definition records_of (script : list Response) : list Vm :=
  concat (map (fun page => get_default (resp_Vms page) []) script).

Definition has_next (page : Response) : bool :=
  truthy (get (resp_NextPageToken page)).

(** ** The rest of the module *)

(** [s.endswith(suffix)]: some tail of [s], [s] itself included, is
    [suffix]. *)
Fixpoint endswith (s suffix : string) : bool :=
  (s =? suffix)
  || match s with
     | EmptyString => false
     | String _ s' => endswith s' suffix
     end.

(** [InventoryModule.verify_file] (lines 85 to 91).  [base_verify_file] is
    the inherited [BaseInventoryPlugin.verify_file]. *)
Definition verify_file (base_verify_file : string -> bool) (path : string) : bool :=
  let valid := false in
  if base_verify_file path
  then if endswith path "outscale.yaml" || endswith path "outscale.yml"
       then true
       else valid
  else valid.

(** A provider that hands out the same page on every call, and counts the
    calls. *)
Record Repeating : Type := mkRepeating {
  answer : Response;
  served : nat
}.

Definition repeating_ReadVms (gw : GatewayParams) (params : ReadVmsParams)
    (c : Repeating) : (exn + Response) * Repeating :=
  (inr (answer c), mkRepeating (answer c) (S (served c))).

#[export] Instance Repeating_ops : Cloud Repeating :=
  {| ReadVms := repeating_ReadVms |}.

(** The groups of all enabled dimensions, in the order of the source. *)
Definition dimension_groups (o : Options) (vm : Vm) : list string :=
  ((if contains "tags" (group_by o)
    then map (fun item => tag_group_name (fst item) (snd item))
           (flatten_tags (Tags vm))
    else [])
   ++ (if contains "region" (group_by o) && truthy (region o)
       then [str (region o)] else [])
   ++ (if contains "subregion" (group_by o) && truthy (vm_subregion vm)
       then [str (vm_subregion vm)] else [])
   ++ (if contains "vm_type" (group_by o) && truthy (get (VmType vm))
       then [("vm_type_" ++ str (get (VmType vm)))%string] else [])
   ++ (if contains "state" (group_by o) && truthy (get (State vm))
       then [("state_" ++ str (get (State vm)))%string] else []))%list.

(** The hosts a journal adds, in order. *)
Definition added_hosts (j : list call) : list string :=
  flat_map
    (fun c =>
       match c with
       | AddHost host => [host]
       | _ => []
       end)
    j.

(** The usable hostnames of a list of records, in order. *)
Definition usable_hostnames (hostname_variable : pyval) (vms : list Vm) : list string :=
  flat_map
    (fun vm =>
       match resolved_hostname hostname_variable vm with
       | Some h => if truthy h then [str h] else []
       | None => []
       end)
    vms.

(** An inventory that reads back what was set: adding a host does not
    touch its variables, a variable reads as last set, and setting one
    variable leaves the host's other variables alone. *)
Definition reads_back (Inv : Type) {ops : Inventory Inv} : Prop :=
  (forall host var inv, host_var host var (add_host host inv) = host_var host var inv)
  /\ (forall host var v inv, host_var host var (set_variable host var v inv) = v)
  /\ (forall host var var' v inv,
         var <> var' ->
         host_var host var' (set_variable host var v inv) = host_var host var' inv).

(** What [host_vars] holds for a value read back: nothing for [None]. *)
Definition unless_None (v : value) : option value :=
  if is_None v then None else Some v.

(** ** Reading the configuration (line 95)

    [_read_config_data] is inherited from Ansible.  Besides loading the
    file it hands the options to Ansible's option validation, which raises
    [AnsibleOptionsError] for a configured value that is not among the
    [choices] that [DOCUMENTATION] declares for the option.  A key that is
    left out or configured null passes (the declared default is validated
    in its place).  The dictionary returned is the one the user wrote, so
    that [parse] reads a null as [None] and applies its own defaults to a
    key left out.  Only the options of this plugin that declare choices
    are checked here: [hostname_variable], [ip_preference] and the elements
    of [group_by]. *)
Definition group_by_choices : list string :=
  ["tags"; "region"; "subregion"; "vm_type"; "state"].

Definition declared_choices (option_name : string) : list string :=
  match dict_get option_name DOCUMENTATION with
  | Some d => doc_choices d
  | None => []
  end.

Definition rejected_choice (option_name : string) (field : option pyval)
    : option exn :=
  match get field with
  | PNone => None
  | PStr s =>
      if contains s (declared_choices option_name)
      then None
      else Some (AnsibleOptionsError option_name (PStr s))
  end.

Definition rejected_dimension (field : option (list string)) : option exn :=
  match find (fun d => negb (contains d group_by_choices)) (get_default field []) with
  | Some d => Some (AnsibleOptionsError "group_by" (PStr d))
  | None => None
  end.

Definition _read_config_data (config : Config) : exn + Config :=
  match rejected_choice "hostname_variable" (cfg_hostname_variable config) with
  | Some e => inl e
  | None =>
      match rejected_choice "ip_preference" (cfg_ip_preference config) with
      | Some e => inl e
      | None =>
          match rejected_dimension (cfg_group_by config) with
          | Some e => inl e
          | None => inr config
          end
      end
  end.

(** [InventoryModule.parse] from line 95 on: the configuration is read and
    checked, then [parse] (line 97 on) runs on the dictionary. *)
Definition InventoryModule_parse {C Inv : Type} {cloud_ops : Cloud C}
    {inventory_ops : Inventory Inv} (fuel : nat) (HAS_OSC_SDK : bool) (env : Env)
    (file : Config) : M C Inv unit :=
  match _read_config_data file with
  | inl e => raise e
  | inr config => parse fuel HAS_OSC_SDK env config
  end.

(** ** Dictionaries *)

Section DictFacts.
Variable V : Type.
Implicit Types (d : dict V) (k : string) (v : V).

Lemma dict_get_set_same d k v : dict_get k (dict_set k v d) = Some v.
Proof.
  induction d as [|[k' v'] d IH]; simpl.
  - now rewrite String.eqb_refl.
  - destruct (k' =? k) eqn:E; simpl; rewrite E; auto.
Qed.

Lemma dict_get_set_other d k k' v :
  k <> k' -> dict_get k' (dict_set k v d) = dict_get k' d.
Proof.
  intros Hne. induction d as [|[k0 v0] d IH]; simpl.
  - destruct (String.eqb_spec k k'); congruence.
  - destruct (String.eqb_spec k0 k) as [->|Hk]; simpl.
    + destruct (String.eqb_spec k k'); [congruence | reflexivity].
    + now rewrite IH.
Qed.

Lemma dict_get_None_keys d k : dict_get k d = None <-> ~ In k (dict_keys d).
Proof.
  induction d as [|[k' v'] d IH]; simpl.
  - tauto.
  - destruct (String.eqb_spec k' k) as [->|Hk].
    + split; [discriminate | intros H; exfalso; auto].
    + rewrite IH. tauto.
Qed.

Lemma dict_set_fresh d k v :
  ~ In k (dict_keys d) -> dict_set k v d = (d ++ [(k, v)])%list.
Proof.
  induction d as [|[k' v'] d IH]; simpl; intros Hin; auto.
  destruct (String.eqb_spec k' k) as [->|Hk].
  - exfalso; auto.
  - rewrite IH; auto.
Qed.

Lemma dict_keys_set d k v :
  dict_keys (dict_set k v d)
  = if existsb (String.eqb k) (dict_keys d) then dict_keys d
    else (dict_keys d ++ [k])%list.
Proof.
  induction d as [|[k' v'] d IH]; simpl; auto.
  rewrite (String.eqb_sym k k').
  destruct (k' =? k) eqn:E; simpl; auto.
  rewrite IH. now destruct (existsb (String.eqb k) (dict_keys d)).
Qed.

Lemma dict_set_NoDup d k v :
  NoDup (dict_keys d) -> NoDup (dict_keys (dict_set k v d)).
Proof.
  intros Hd. rewrite dict_keys_set.
  destruct (existsb (String.eqb k) (dict_keys d)) eqn:E; auto.
  apply NoDup_app; auto.
  - repeat constructor; simpl; tauto.
  - intros x Hx [Hk|[]]. subst x.
    assert (existsb (String.eqb k) (dict_keys d) = true); [|congruence].
    apply existsb_exists. exists k. now rewrite String.eqb_refl.
Qed.
End DictFacts.

(** ** Tag flattening *)

Section FlattenFacts.
(** The comprehension started from a dictionary already built. *)
Let flatten_from (acc : dict pyval) (tags : list Tag) : dict pyval :=
  fold_left
    (fun d tag =>
       match Value tag with
       | Some v => dict_set (Key tag) v d
       | None => d
       end)
    tags acc.

Lemma flatten_tags_app (l1 l2 : list Tag) :
  flatten_tags (l1 ++ l2) = flatten_from (flatten_tags l1) l2.
Proof. unfold flatten_tags, flatten_from. apply fold_left_app. Qed.

Lemma flatten_from_untouched (k : string) (l : list Tag) :
  (forall t, In t l -> Key t = k -> Value t = None) ->
  forall acc, dict_get k (flatten_from acc l) = dict_get k acc.
Proof.
  induction l as [|t l IH]; intros Hl acc; simpl; auto.
  rewrite IH by (intros; apply Hl; simpl; auto).
  destruct (Value t) as [v|] eqn:Ev; auto.
  apply dict_get_set_other. intros Hk.
  specialize (Hl t (or_introl eq_refl) Hk). congruence.
Qed.

Lemma flatten_from_NoDup (l : list Tag) :
  forall acc, NoDup (dict_keys acc) -> NoDup (dict_keys (flatten_from acc l)).
Proof.
  induction l as [|t l IH]; intros acc Hacc; simpl; auto.
  apply IH. destruct (Value t); auto using dict_set_NoDup.
Qed.

Lemma flatten_from_unique (l : list Tag) :
  forall acc,
    NoDup (dict_keys acc ++ map fst (valued_pairs l)) ->
    flatten_from acc l = (acc ++ valued_pairs l)%list.
Proof.
  induction l as [|t l IH]; intros acc Hnd; simpl.
  - now rewrite app_nil_r.
  - simpl in Hnd. destruct (Value t) as [v|] eqn:Ev; simpl in *.
    + assert (Hfresh : ~ In (Key t) (dict_keys acc)).
      { apply NoDup_remove_2 in Hnd. rewrite in_app_iff in Hnd. tauto. }
      rewrite dict_set_fresh by exact Hfresh.
      rewrite IH.
      * now rewrite <- app_assoc.
      * unfold dict_keys in *. rewrite map_app. simpl.
        now rewrite <- app_assoc.
    + now apply IH.
Qed.

Lemma flatten_tags_NoDup (tags : list Tag) :
  NoDup (dict_keys (flatten_tags tags)).
Proof. apply (flatten_from_NoDup tags []). constructor. Qed.

Lemma flatten_tags_unique (tags : list Tag) :
  NoDup (map fst (valued_pairs tags)) -> flatten_tags tags = valued_pairs tags.
Proof. intros H. now apply (flatten_from_unique tags []). Qed.

Lemma flatten_tags_last (before after : list Tag) (t : Tag) (v : pyval) :
  Value t = Some v ->
  (forall t', In t' after -> Key t' = Key t -> Value t' = None) ->
  dict_get (Key t) (flatten_tags (before ++ t :: after)) = Some v.
Proof.
  intros Hv Hafter. rewrite flatten_tags_app. simpl. rewrite Hv.
  rewrite flatten_from_untouched by exact Hafter. apply dict_get_set_same.
Qed.

Lemma flatten_tags_drop (before after : list Tag) (t : Tag) :
  Value t = None ->
  flatten_tags (before ++ t :: after) = flatten_tags (before ++ after).
Proof. intros Hv. rewrite !flatten_tags_app. simpl. now rewrite Hv. Qed.

Lemma flatten_tags_absent (k : string) (tags : list Tag) :
  (forall t, In t tags -> Key t = k -> Value t = None) ->
  dict_get k (flatten_tags tags) = None.
Proof. intros H. apply (@flatten_from_untouched k tags H []). Qed.
End FlattenFacts.

Lemma valued_pairs_as_tags (d : dict pyval) : valued_pairs (as_tags d) = d.
Proof.
  induction d as [|[k v] d IH]; simpl; auto. now rewrite IH.
Qed.

Lemma flatten_tags_idempotent (tags : list Tag) :
  flatten_tags (as_tags (flatten_tags tags)) = flatten_tags tags.
Proof.
  rewrite flatten_tags_unique; rewrite valued_pairs_as_tags; auto.
  apply flatten_tags_NoDup.
Qed.

(** C6. Flattening a tag list into a dictionary: the last tag that carries a
    value for a key decides the key's value; a tag without a value leaves no
    trace (and a key that only such tags carry is absent); on a list whose
    valued keys are pairwise distinct the result is the list of its pairs,
    and flattening a flattened list again changes nothing; under the
    [tag_Name] strategy the hostname is the dictionary's ["Name"] entry, and
    the record's [VmId] exactly when the key ["Name"] is absent. *)
Theorem C6_flatten_tags_last_write_and_Name (tags : list Tag) :
  (forall before t after v,
      tags = (before ++ t :: after)%list ->
      Value t = Some v ->
      (forall t', In t' after -> Key t' = Key t -> Value t' = None) ->
      dict_get (Key t) (flatten_tags tags) = Some v)
  /\ (forall before t after,
         tags = (before ++ t :: after)%list ->
         Value t = None ->
         flatten_tags tags = flatten_tags (before ++ after))
  /\ (forall k,
         (forall t, In t tags -> Key t = k -> Value t = None) ->
         dict_get k (flatten_tags tags) = None)
  /\ (NoDup (map fst (valued_pairs tags)) -> flatten_tags tags = valued_pairs tags)
  /\ flatten_tags (as_tags (flatten_tags tags)) = flatten_tags tags
  /\ (forall vm hostname,
         Tags vm = tags ->
         determine_hostname (PStr "tag_Name") vm hostname
         = Some (match dict_get "Name" (flatten_tags tags) with
                 | Some name => name
                 | None => get (VmId vm)
                 end)).
Proof.
  repeat split.
  - intros before t after v -> Hv Hafter. now apply flatten_tags_last.
  - intros before t after -> Hv. now apply flatten_tags_drop.
  - intros k H. now apply flatten_tags_absent.
  - intros H. now apply flatten_tags_unique.
  - apply flatten_tags_idempotent.
  - intros vm hostname <-. unfold determine_hostname. simpl.
    now destruct (dict_get "Name" (flatten_tags (Tags vm))).
Qed.

(** ** Sanitisation *)

Lemma replace_length (old new : ascii) (s : string) :
  String.length (replace old new s) = String.length s.
Proof. induction s; simpl; auto. Qed.

Lemma replace_get (old new : ascii) (s : string) :
  forall n,
    String.get n (replace old new s)
    = option_map (fun c => if Ascii.eqb c old then new else c) (String.get n s).
Proof.
  induction s as [|c s IH]; intros [|n]; simpl; auto.
Qed.

Lemma sanitized_three_passes (c : ascii) :
  (let c1 := if Ascii.eqb c ":" then "_"%char else c in
   let c2 := if Ascii.eqb c1 "/" then "_"%char else c1 in
   if Ascii.eqb c2 " " then "_"%char else c2) = sanitized c.
Proof.
  unfold sanitized. cbv zeta.
  destruct (Ascii.eqb c ":") eqn:E1; simpl; auto.
  destruct (Ascii.eqb c "/") eqn:E2; simpl; auto.
Qed.

Lemma safe_value_length (v : pyval) :
  String.length (safe_value v) = String.length (str (py_or v (PStr EmptyString))).
Proof. unfold safe_value. now rewrite !replace_length. Qed.

Lemma safe_value_get (v : pyval) (n : nat) :
  String.get n (safe_value v)
  = option_map sanitized (String.get n (str (py_or v (PStr EmptyString)))).
Proof.
  unfold safe_value. rewrite !replace_get.
  destruct (String.get n (str (py_or v (PStr EmptyString)))) as [c|]; simpl; auto.
  f_equal. apply sanitized_three_passes.
Qed.

Lemma sanitized_hit (c : ascii) :
  c = ":"%char \/ c = "/"%char \/ c = " "%char -> sanitized c = "_"%char.
Proof. intros [->|[->| ->]]; reflexivity. Qed.

Lemma sanitized_miss (c : ascii) :
  c <> ":"%char -> c <> "/"%char -> c <> " "%char -> sanitized c = c.
Proof.
  intros H1 H2 H3. unfold sanitized.
  destruct (Ascii.eqb_spec c ":"); [contradiction|].
  destruct (Ascii.eqb_spec c "/"); [contradiction|].
  destruct (Ascii.eqb_spec c " "); [contradiction|]. reflexivity.
Qed.

(** ** Running the plugin *)

Section Runs.
Context {C Inv : Type} {cloud_ops : Cloud C} {inventory_ops : Inventory Inv}.
Implicit Types (st : state C Inv) (o : Options) (vm : Vm).

Lemma bind_ok {A B : Type} (m : M C Inv A) (k : A -> M C Inv B) st a st1 :
  m st = (Ok a, st1) -> bind m k st = k a st1.
Proof. unfold bind. now intros ->. Qed.

Lemma bind_raise {A B : Type} (m : M C Inv A) (k : A -> M C Inv B) st e st1 :
  m st = (Raise e, st1) -> bind m k st = (Raise e, st1).
Proof. unfold bind. now intros ->. Qed.

Lemma journals_ret : @journals C Inv (ret tt) [].
Proof.
  intros [c i j]. exists i. unfold ret. simpl. now rewrite app_nil_r.
Qed.

Lemma journals_seq (m k : M C Inv unit) (l1 l2 : list call) :
  journals m l1 -> journals k l2 -> @journals C Inv (bind m (fun _ => k)) (l1 ++ l2).
Proof.
  intros Hm Hk st. destruct (Hm st) as [i1 E1].
  destruct (Hk (mkState (cloud st) i1 (journal st ++ l1)%list)) as [i2 E2].
  exists i2. erewrite bind_ok by exact E1. rewrite E2. simpl. now rewrite app_assoc.
Qed.

Lemma journals_when (cond : bool) (m : M C Inv unit) (l : list call) :
  journals m l -> @journals C Inv (when cond m) (if cond then l else []).
Proof. destruct cond; simpl; auto using journals_ret. Qed.

Lemma journals_call (c : call) (f : Inv -> Inv) : @journals C Inv (inventory_call c f) [c].
Proof. intros st. now exists (f (inventory st)). Qed.

Lemma journals_join (group hostname : string) :
  @journals C Inv (join_group group hostname) (joins group hostname).
Proof. apply (journals_seq (l1 := [_]) (l2 := [_])); apply journals_call. Qed.

Lemma journals_for_each {A : Type} (body : A -> M C Inv unit)
    (f : A -> list call) (xs : list A) :
  (forall x, @journals C Inv (body x) (f x)) ->
  @journals C Inv (for_each xs body) (flat_map f xs).
Proof.
  intros Hbody. induction xs as [|x xs IH]; simpl.
  - apply journals_ret.
  - now apply journals_seq.
Qed.

Lemma journals_add_to_groups o vm (hostname : string) :
  @journals C Inv (add_to_groups o vm hostname) (dimension_joins o vm hostname).
Proof.
  unfold add_to_groups, dimension_joins.
  repeat apply journals_seq.
  - apply journals_when. unfold group_by_tags, tag_joins.
    apply journals_for_each. intros x. apply journals_join.
  - apply journals_when, journals_join.
  - apply journals_when, journals_when, journals_join.
  - apply journals_when, journals_when, journals_join.
  - apply journals_when, journals_when, journals_join.
Qed.

(** *** The address policy *)

Lemma py_eq_true (v : pyval) (lit : string) : py_eq v lit = true <-> v = PStr lit.
Proof.
  destruct v as [|s]; simpl.
  - split; discriminate.
  - rewrite String.eqb_eq. split; congruence.
Qed.

Lemma py_eq_false (v : pyval) (lit : string) : py_eq v lit = false <-> v <> PStr lit.
Proof.
  rewrite <- py_eq_true. destruct (py_eq v lit); split; congruence.
Qed.

Lemma select_ansible_host_invalid (ip : pyval) vm :
  ~ In ip ip_choices ->
  select_ansible_host ip vm = inl (invalid_ip_preference ip).
Proof.
  intros Hip. unfold select_ansible_host, ip_choices in *. simpl in Hip.
  assert (E1 : py_eq ip "public_only" = false) by (apply py_eq_false; intuition).
  assert (E2 : py_eq ip "private_only" = false) by (apply py_eq_false; intuition).
  assert (E3 : py_eq ip "prefer_public" = false) by (apply py_eq_false; intuition).
  now rewrite E1, E2, E3.
Qed.

Lemma select_ansible_host_valid (ip : pyval) vm :
  In ip ip_choices -> exists a, select_ansible_host ip vm = inr a.
Proof.
  unfold select_ansible_host. simpl.
  intros [<-|[<-|[<-|[]]]]; simpl; eauto.
Qed.

(** *** The hostname strategy *)

Lemma determine_hostname_invalid (hv : pyval) vm (hostname : option pyval) :
  ~ In hv hostname_choices -> determine_hostname hv vm hostname = hostname.
Proof.
  intros Hhv. unfold determine_hostname, hostname_choices in *. simpl in Hhv.
  assert (E1 : py_eq hv "vm_id" = false) by (apply py_eq_false; intuition).
  assert (E2 : py_eq hv "public_ip" = false) by (apply py_eq_false; intuition).
  assert (E3 : py_eq hv "private_ip" = false) by (apply py_eq_false; intuition).
  assert (E4 : py_eq hv "tag_Name" = false) by (apply py_eq_false; intuition).
  now rewrite E1, E2, E3, E4.
Qed.

(** Under a recognised strategy the local left by the previous iteration
    is overwritten, whatever it was. *)
Lemma determine_hostname_valid (hv : pyval) vm (hostname : option pyval) :
  In hv hostname_choices ->
  determine_hostname hv vm hostname = resolved_hostname hv vm
  /\ resolved_hostname hv vm <> None.
Proof.
  unfold resolved_hostname, determine_hostname. simpl.
  intros [<-|[<-|[<-|[<-|[]]]]]; simpl; split; congruence.
Qed.

Lemma hostname_choice_dec (hv : pyval) :
  {In hv hostname_choices} + {~ In hv hostname_choices}.
Proof.
  apply in_dec. intros [|a] [|b]; try (right; discriminate); auto.
  destruct (string_dec a b) as [->|Hab]; [left | right]; congruence.
Qed.

Lemma resolved_hostname_choice (hv : pyval) vm (h : pyval) :
  resolved_hostname hv vm = Some h -> In hv hostname_choices.
Proof.
  intros Hres. destruct (hostname_choice_dec hv) as [Hin|Hout]; auto.
  unfold resolved_hostname in Hres.
  rewrite determine_hostname_invalid in Hres by exact Hout. discriminate.
Qed.

Lemma determine_hostname_resolved (hv : pyval) vm vm' (h : pyval)
    (hostname : option pyval) :
  resolved_hostname hv vm = Some h ->
  determine_hostname hv vm' hostname = resolved_hostname hv vm'.
Proof.
  intros Hres. apply determine_hostname_valid.
  eapply resolved_hostname_choice; eauto.
Qed.

(** *** One record *)

Lemma process_vm_unbound o vm (hostname : option pyval) st :
  determine_hostname (hostname_variable o) vm hostname = None ->
  process_vm o hostname vm st = (Raise (UnboundLocalError "hostname"), st).
Proof. unfold process_vm. now intros ->. Qed.

Lemma process_vm_skip o vm (hostname : option pyval) (h : pyval) st :
  determine_hostname (hostname_variable o) vm hostname = Some h ->
  truthy h = false ->
  process_vm o hostname vm st = (Ok (Some h), st).
Proof. unfold process_vm. now intros -> ->. Qed.

Lemma process_vm_register o vm (hostname : option pyval) (h : pyval) st :
  determine_hostname (hostname_variable o) vm hostname = Some h ->
  truthy h = true ->
  process_vm o hostname vm st
  = bind (register_vm o vm (str h)) (fun _ => ret (Some h)) st.
Proof. unfold process_vm. now intros -> ->. Qed.

Lemma register_vm_raises o vm (hostname : string) (e : exn) st :
  select_ansible_host (ip_preference o) vm = inl e ->
  register_vm o vm hostname st
  = (Raise e,
     mkState (cloud st) (add_host hostname (inventory st))
       (journal st ++ [AddHost hostname])%list).
Proof.
  intros Hsel. unfold register_vm, bind, inventory_call, lift. simpl.
  now rewrite Hsel.
Qed.

(** Up to the helpers, a record whose address policy is recognised only
    adds the host and writes its variables. *)
Lemma register_vm_mapped o vm (hostname : string) (a : pyval) st :
  select_ansible_host (ip_preference o) vm = inr a ->
  register_vm o vm hostname st
  = bind
      (apply_constructable o
         (read_host_vars hostname (mapped_inventory vm a hostname (inventory st)))
         hostname)
      (fun _ => add_to_groups o vm hostname)
      (mkState (cloud st) (mapped_inventory vm a hostname (inventory st))
         (journal st ++ mapper_journal vm a hostname)%list).
Proof.
  intros Hsel.
  unfold register_vm, bind, inventory_call, lift, when, set_other_variables,
    set_var, build_host_vars, ret, mapped_inventory, mapper_journal,
    written_variables.
  rewrite Hsel.
  destruct (truthy a); simpl; repeat rewrite <- app_assoc; simpl; reflexivity.
Qed.

Lemma constructable_call_cases (c : call) (f : Inv -> option exn * Inv) st :
  (exists e inv,
      constructable_call c f st
      = (Raise e, mkState (cloud st) inv (journal st ++ [c])%list))
  \/ (exists inv,
         constructable_call c f st
         = (Ok tt, mkState (cloud st) inv (journal st ++ [c])%list)).
Proof.
  unfold constructable_call. destruct (f (inventory st)) as [[e|] inv]; eauto.
Qed.

Lemma apply_constructable_cases o (host_vars : dict value) (hostname : string) st :
  (exists e st', apply_constructable o host_vars hostname st = (Raise e, st'))
  \/ (exists inv,
         apply_constructable o host_vars hostname st
         = (Ok tt,
            mkState (cloud st) inv
              (journal st ++ constructable_calls o host_vars hostname)%list)).
Proof.
  unfold apply_constructable, constructable_calls.
  match goal with |- context [bind (constructable_call ?c ?f) _ st] =>
    destruct (constructable_call_cases c f st) as [(e & i1 & E1)|(i1 & E1)] end.
  { left. erewrite bind_raise by exact E1. eauto. }
  erewrite bind_ok by exact E1.
  match goal with |- context [bind (constructable_call ?c ?f) _ ?s] =>
    destruct (constructable_call_cases c f s) as [(e & i2 & E2)|(i2 & E2)] end.
  { left. erewrite bind_raise by exact E2. eauto. }
  erewrite bind_ok by exact E2.
  match goal with |- context [constructable_call ?c ?f ?s] =>
    destruct (constructable_call_cases c f s) as [(e & i3 & E3)|(i3 & E3)] end.
  { left. rewrite E3. eauto. }
  right. exists i3. rewrite E3. simpl. now rewrite <- !app_assoc.
Qed.

(** A record that is registered to the end: the policy chose an address
    and no helper raised; the journal grows by the mapper's calls, the
    three helper calls on the variables read back, and the grouping. *)
Lemma register_vm_ok o vm (hostname : string) st st' :
  register_vm o vm hostname st = (Ok tt, st') ->
  exists a,
    select_ansible_host (ip_preference o) vm = inr a
    /\ cloud st' = cloud st
    /\ journal st'
       = (journal st
          ++ mapper_journal vm a hostname
          ++ constructable_calls o
               (read_host_vars hostname (mapped_inventory vm a hostname (inventory st)))
               hostname
          ++ dimension_joins o vm hostname)%list.
Proof.
  destruct (select_ansible_host (ip_preference o) vm) as [e|a] eqn:Hsel.
  { erewrite register_vm_raises by exact Hsel. discriminate. }
  erewrite register_vm_mapped by exact Hsel. intros Hrun.
  exists a. split; [reflexivity|].
  match type of Hrun with bind (apply_constructable ?o ?hv ?h) _ ?s = _ =>
    destruct (apply_constructable_cases o hv h s) as [(e & s1 & E)|(inv & E)] end.
  { erewrite bind_raise in Hrun by exact E. discriminate. }
  erewrite bind_ok in Hrun by exact E.
  match type of Hrun with add_to_groups ?o ?vm ?h ?s = _ =>
    destruct (journals_add_to_groups o vm h s) as [inv' E'] end.
  rewrite E' in Hrun. injection Hrun as <-. simpl.
  split; [reflexivity|]. now rewrite <- !app_assoc.
Qed.

(** *** The loop over the records *)

Lemma process_vms_cons o (hostname : option pyval) vm (vms : list Vm) st :
  process_vms o hostname (vm :: vms) st
  = bind (process_vm o hostname vm) (fun hostname' => process_vms o hostname' vms) st.
Proof. reflexivity. Qed.

(** Records without a usable hostname at the head of the list leave the
    state as it is; only the local [hostname] may differ afterwards. *)
Lemma process_vms_skips o (pre : list Vm) :
  Forall (unresolvable (hostname_variable o)) pre ->
  forall hostname, exists hostname',
    forall rest st,
      process_vms o hostname (pre ++ rest) st = process_vms o hostname' rest st.
Proof.
  induction 1 as [|vm pre (h & Hres & Hfalsy) _ IH]; intros hostname.
  - now exists hostname.
  - destruct (IH (Some h)) as [hostname' Hrest]. exists hostname'.
    intros rest st. simpl app. rewrite process_vms_cons.
    erewrite bind_ok; [apply Hrest|].
    apply process_vm_skip; auto.
    erewrite determine_hostname_resolved; eauto.
Qed.

Lemma process_vms_registers o (hostname : option pyval) vm (h : pyval)
    (post : list Vm) st :
  resolvable (hostname_variable o) vm h ->
  process_vms o hostname (vm :: post) st
  = bind (register_vm o vm (str h)) (fun _ => process_vms o (Some h) post) st.
Proof.
  intros [Hres Htruthy]. rewrite process_vms_cons.
  unfold bind at 1. erewrite process_vm_register; eauto.
  - unfold bind, ret. now destruct (register_vm o vm (str h) st) as [[| |] ?].
  - erewrite determine_hostname_resolved; eauto.
Qed.

(** The first record with a usable hostname, when there is one. *)
Lemma first_resolvable (hv : pyval) (vms : list Vm) vm (h : pyval) :
  In vm vms -> resolvable hv vm h ->
  exists pre vm' h' post,
    vms = (pre ++ vm' :: post)%list
    /\ Forall (unresolvable hv) pre
    /\ resolvable hv vm' h'.
Proof.
  intros Hin Hvm.
  assert (Hchoice : In hv hostname_choices)
    by (eapply resolved_hostname_choice; apply Hvm).
  induction vms as [|x vms IH]; [contradiction|].
  destruct (resolved_hostname hv x) as [hx|] eqn:Hx.
  2:{ exfalso. eapply (determine_hostname_valid x None Hchoice); eauto. }
  destruct (truthy hx) eqn:Htruthy.
  - exists [], x, hx, vms. repeat split; auto.
  - destruct Hin as [->|Hin].
    + destruct Hvm as [Hres Ht]. congruence.
    + destruct (IH Hin) as (pre & vm' & h' & post & -> & Hpre & Hvm').
      exists (x :: pre), vm', h', post. repeat split; auto.
      * constructor; auto. now exists hx.
      * apply Hvm'.
      * apply Hvm'.
Qed.

(** The invalid address policy surfaces at the first record with a
    usable hostname, once that host is added. *)
Lemma process_vms_invalid_policy o (hostname : option pyval)
    (pre post : list Vm) vm (h : pyval) st :
  Forall (unresolvable (hostname_variable o)) pre ->
  resolvable (hostname_variable o) vm h ->
  ~ In (ip_preference o) ip_choices ->
  process_vms o hostname (pre ++ vm :: post) st
  = (Raise (invalid_ip_preference (ip_preference o)),
     mkState (cloud st) (add_host (str h) (inventory st))
       (journal st ++ [AddHost (str h)])%list).
Proof.
  intros Hpre Hvm Hip.
  edestruct process_vms_skips as [hostname' Hskip]; [exact Hpre|]. rewrite Hskip.
  erewrite process_vms_registers by exact Hvm.
  apply bind_raise, register_vm_raises.
  now apply select_ansible_host_invalid.
Qed.

Lemma process_vms_all_skipped o (vms : list Vm) (hostname : option pyval) st :
  Forall (unresolvable (hostname_variable o)) vms ->
  process_vms o hostname vms st = (Ok tt, st).
Proof.
  intros Hvms.
  edestruct process_vms_skips as [hostname' Hskip]; [exact Hvms|].
  specialize (Hskip [] st). rewrite app_nil_r in Hskip. now rewrite Hskip.
Qed.

Lemma process_vm_ok_registered o vm (hostname hostname' : option pyval)
    (h : pyval) st st' :
  determine_hostname (hostname_variable o) vm hostname = Some h ->
  truthy h = true ->
  process_vm o hostname vm st = (Ok hostname', st') ->
  register_vm o vm (str h) st = (Ok tt, st').
Proof.
  intros Hdet Htruthy. erewrite process_vm_register by eassumption.
  unfold bind, ret.
  destruct (register_vm o vm (str h) st) as [[[]| |] st1]; congruence.
Qed.

(** *** The whole of [parse] *)

Lemma parse_fetched (fuel : nat) (env : Env) (config : Config) st
    (vms : list Vm) st1 :
  truthy (access_key (read_options env config)) = true ->
  truthy (secret_key (read_options env config)) = true ->
  fetch_vms fuel (gateway_params (read_options env config))
    (filters (read_options env config)) st = (Ok vms, st1) ->
  parse fuel true env config st
  = process_vms (read_options env config) None vms st1.
Proof.
  intros Ha Hs Hfetch. unfold parse. rewrite Ha, Hs. cbn [negb orb].
  now apply bind_ok.
Qed.
End Runs.

(** ** Fetching from a scripted provider *)

Section Fetch.
Context {Inv : Type} {inventory_ops : Inventory Inv}.
Variables (gw : GatewayParams) (last : Response) (more : list Response).
Variables (inv : Inv) (j : list call).
Hypothesis last_has_no_next : has_next last = false.

Lemma fetch_loop_script (init : list Response) :
  Forall (fun page => has_next page = true) init ->
  forall fuel params next_token vms reqs,
    length init < fuel ->
    fetch_loop fuel gw params next_token vms
      (mkState (mkScript (init ++ last :: more) reqs) inv j)
    = (Ok (vms ++ records_of (init ++ [last]))%list,
       mkState
         (mkScript more
            (reqs
             ++ (gw, if truthy next_token
                     then mkReadVmsParams (Filters_ params) (Some next_token)
                     else params)
             :: map (next_request gw (Filters_ params)) init)%list)
         inv j).
Proof.
  induction 1 as [|page init Hpage _ IH]; intros [|fuel] params tok vms reqs Hfuel;
    try (simpl in Hfuel; lia).
  - simpl. unfold bind, read_vms. simpl.
    unfold has_next in last_has_no_next. rewrite last_has_no_next. simpl.
    unfold ret, records_of. simpl.
    now rewrite (app_nil_r (get_default (resp_Vms last) [])).
  - simpl. unfold bind at 1. unfold read_vms at 1. simpl.
    unfold has_next in Hpage. rewrite Hpage. cbn [negb].
    rewrite IH by (simpl in Hfuel; lia).
    rewrite Hpage. unfold records_of. simpl.
    rewrite <- !app_assoc. simpl.
    assert (HF : Filters_ (if truthy tok
                           then mkReadVmsParams (Filters_ params) (Some tok)
                           else params) = Filters_ params)
      by now destruct (truthy tok).
    unfold next_request. now rewrite HF.
Qed.
End Fetch.

(** ** The default address policy *)

(** C1. With [ip_preference] left out of the configuration, [parse] reads
    ['public_or_private'] while [DOCUMENTATION] declares ['prefer_public'];
    the value read is none of the three recognised policies, so every run
    that fetched at least one record with a usable hostname ends in the
    fatal error "Invalid parameter value for ip_preference". *)
Theorem C1_omitted_ip_preference_aborts
    {C Inv : Type} {cloud_ops : Cloud C} {inventory_ops : Inventory Inv}
    (fuel : nat) (env : Env) (config : Config) (st st1 : state C Inv)
    (vms : list Vm) (vm : Vm) (h : pyval) :
  cfg_ip_preference config = None ->
  truthy (access_key (read_options env config)) = true ->
  truthy (secret_key (read_options env config)) = true ->
  fetch_vms fuel (gateway_params (read_options env config))
    (filters (read_options env config)) st = (Ok vms, st1) ->
  In vm vms ->
  resolvable (hostname_variable (read_options env config)) vm h ->
  ip_preference (read_options env config) = PStr "public_or_private"
  /\ declared_default "ip_preference" = Some "prefer_public"
  /\ ~ In (ip_preference (read_options env config)) ip_choices
  /\ exists st2,
       parse fuel true env config st
       = (Raise (AnsibleError
                   (Msg "Invalid parameter value for ip_preference: public_or_private")),
          st2).
Proof.
  intros Hcfg Ha Hs Hfetch Hin Hvm.
  assert (Hip : ip_preference (read_options env config) = PStr "public_or_private")
    by (simpl; now rewrite Hcfg).
  assert (Hout : ~ In (ip_preference (read_options env config)) ip_choices).
  { rewrite Hip. simpl. intros [H|[H|[H|[]]]]; discriminate. }
  repeat split; auto.
  destruct (@first_resolvable _ vms vm h Hin Hvm)
    as (pre & vm' & h' & post & -> & Hpre & Hvm').
  eexists. erewrite parse_fetched by eassumption.
  erewrite process_vms_invalid_policy by eassumption.
  unfold invalid_ip_preference. rewrite Hip. reflexivity.
Qed.

Lemma C1_witness :
  ip_preference (read_options [] Examples.credentials) = PStr "public_or_private"
  /\ declared_default "ip_preference" = Some "prefer_public"
  /\ ~ In (ip_preference (read_options [] Examples.credentials)) ip_choices
  /\ exists st2,
       parse 3 true [] Examples.credentials
         (fresh (Examples.one_page [Examples.nameless; Examples.web1]))
       = (Raise (AnsibleError
                   (Msg "Invalid parameter value for ip_preference: public_or_private")),
          st2).
Proof.
  eapply (@C1_omitted_ip_preference_aborts Script MemInventory _ _ 3 []
            Examples.credentials
            (fresh (Examples.one_page [Examples.nameless; Examples.web1]))
            _ _ Examples.web1 (PStr "web:1")).
  - reflexivity.
  - reflexivity.
  - reflexivity.
  - reflexivity.
  - right; left; reflexivity.
  - split; reflexivity.
Defined.

(** ** Order of the helpers and the grouping *)

Lemma mapper_journal_kinds (vm : Vm) (a : pyval) (hostname : string) :
  Forall (fun c => is_grouping_call c = false /\ is_constructable_call c = false)
    (mapper_journal vm a hostname).
Proof.
  unfold mapper_journal, written_variables.
  destruct (truthy a); simpl; repeat constructor.
Qed.

Lemma tag_joins_kinds (vm : Vm) (hostname : string) :
  Forall (fun c => is_grouping_call c = true) (tag_joins vm hostname).
Proof.
  unfold tag_joins. induction (flatten_tags (Tags vm)) as [|item d IH]; simpl.
  - constructor.
  - repeat constructor. exact IH.
Qed.

Lemma dimension_joins_kinds (o : Options) (vm : Vm) (hostname : string) :
  Forall (fun c => is_grouping_call c = true) (dimension_joins o vm hostname).
Proof.
  unfold dimension_joins.
  repeat (apply Forall_app; split);
    repeat match goal with |- context [if ?b then _ else _] => destruct b end;
    auto using tag_joins_kinds; repeat constructor.
Qed.

(** C2 (as the code has it). For every record that is registered to the end,
    the three [Constructable] helpers are called after the host is added and
    its variables are written, and before every call of the dimension-based
    grouping of that record; the [host_vars] all three receive are the
    variables read back from the inventory as the mapper left it. *)
Theorem C2_constructable_runs_before_grouping
    {C Inv : Type} {cloud_ops : Cloud C} {inventory_ops : Inventory Inv}
    (o : Options) (hostname hostname' : option pyval) (vm : Vm) (h : pyval)
    (st st' : state C Inv) :
  determine_hostname (hostname_variable o) vm hostname = Some h ->
  truthy h = true ->
  process_vm o hostname vm st = (Ok hostname', st') ->
  exists a,
    select_ansible_host (ip_preference o) vm = inr a
    /\ journal st'
       = (journal st
          ++ mapper_journal vm a (str h)
          ++ constructable_calls o
               (read_host_vars (str h) (mapped_inventory vm a (str h) (inventory st)))
               (str h)
          ++ dimension_joins o vm (str h))%list
    /\ Forall (fun c => is_grouping_call c = false /\ is_constructable_call c = false)
         (mapper_journal vm a (str h))
    /\ Forall (fun c => is_grouping_call c = true) (dimension_joins o vm (str h)).
Proof.
  intros Hdet Htruthy Hrun.
  assert (Hreg : register_vm o vm (str h) st = (Ok tt, st'))
    by (eapply process_vm_ok_registered; eassumption).
  apply register_vm_ok in Hreg. destruct Hreg as (a & Hsel & _ & Hj).
  exists a. repeat split; auto using mapper_journal_kinds, dimension_joins_kinds.
Qed.

Lemma C2_witness :
  exists a,
    select_ansible_host (PStr "prefer_public") Examples.web1 = inr a
    /\ journal (snd (process_vm
                       (read_options [] (Examples.with_policy "prefer_public" ["tags"; "state"]))
                       None Examples.web1 (fresh [])))
       = ([]
          ++ mapper_journal Examples.web1 a "web:1"
          ++ constructable_calls
               (read_options [] (Examples.with_policy "prefer_public" ["tags"; "state"]))
               (read_host_vars "web:1"
                  (mapped_inventory Examples.web1 a "web:1" empty_inventory))
               "web:1"
          ++ dimension_joins
               (read_options [] (Examples.with_policy "prefer_public" ["tags"; "state"]))
               Examples.web1 "web:1")%list
    /\ Forall (fun c => is_grouping_call c = false /\ is_constructable_call c = false)
         (mapper_journal Examples.web1 a "web:1")
    /\ Forall (fun c => is_grouping_call c = true)
         (dimension_joins
            (read_options [] (Examples.with_policy "prefer_public" ["tags"; "state"]))
            Examples.web1 "web:1").
Proof.
  apply (@C2_constructable_runs_before_grouping Script MemInventory _ _
           (read_options [] (Examples.with_policy "prefer_public" ["tags"; "state"]))
           None (Some (PStr "web:1")) Examples.web1 (PStr "web:1") (fresh [])
           (snd (process_vm
                   (read_options [] (Examples.with_policy "prefer_public" ["tags"; "state"]))
                   None Examples.web1 (fresh [])))).
  - reflexivity.
  - reflexivity.
  - reflexivity.
Defined.

(** The run of the specification's example: the helpers are journalled
    before the two groups are created, so "helpers after grouping" fails. *)
Lemma C2_counterexample :
  fst (parse 3 true [] (Examples.with_policy "prefer_public" ["tags"; "state"])
         (fresh (Examples.one_page [Examples.web1])))
  = Ok tt
  /\ constructable_after_grouping
       (journal (snd (parse 3 true []
                        (Examples.with_policy "prefer_public" ["tags"; "state"])
                        (fresh (Examples.one_page [Examples.web1])))))
     = false.
Proof. split; reflexivity. Qed.

(** ** Records without a usable hostname *)

(** C3. Whatever the hostname strategy and the [strict] flag, a record
    whose chosen source is empty or absent changes nothing: the iteration
    returns with the provider, the inventory and the journal as they were,
    and the loop goes on with the next record. *)
Theorem C3_unresolved_record_is_skipped_whole
    {C Inv : Type} {cloud_ops : Cloud C} {inventory_ops : Inventory Inv}
    (o : Options) (hostname : option pyval) (vm : Vm) (h : pyval)
    (rest : list Vm) (st : state C Inv) :
  determine_hostname (hostname_variable o) vm hostname = Some h ->
  truthy h = false ->
  process_vm o hostname vm st = (Ok (Some h), st)
  /\ process_vms o hostname (vm :: rest) st = process_vms o (Some h) rest st.
Proof.
  intros Hdet Hfalsy.
  assert (Hskip : process_vm o hostname vm st = (Ok (Some h), st))
    by now apply process_vm_skip.
  split; [exact Hskip|].
  rewrite process_vms_cons. erewrite bind_ok by exact Hskip. reflexivity.
Qed.

Lemma C3_witness :
  process_vm (read_options [] (Examples.with_strategy "public_ip" true)) None
    Examples.nameless (fresh [])
  = (Ok (Some PNone), fresh [])
  /\ process_vms (read_options [] (Examples.with_strategy "public_ip" true)) None
       [Examples.nameless; Examples.web1] (fresh [])
     = process_vms (read_options [] (Examples.with_strategy "public_ip" true))
         (Some PNone) [Examples.web1] (fresh []).
Proof.
  apply (@C3_unresolved_record_is_skipped_whole Script MemInventory _ _
           (read_options [] (Examples.with_strategy "public_ip" true))
           None Examples.nameless PNone [Examples.web1] (fresh [])).
  - reflexivity.
  - reflexivity.
Defined.

(** ** Pagination *)

(** C4. Against a provider that serves N pages, all but the last with a
    continuation token and the last without one (absent, null or empty),
    the fetch loop returns once N iterations are allowed: it has made
    exactly N calls (the first without a token, each later one with the
    token of the page before), it leaves the pages after the N-th unread,
    and the records are the pages' batches concatenated in order. *)
Theorem C4_pagination_reads_every_page_once
    {Inv : Type} {inventory_ops : Inventory Inv}
    (gw : GatewayParams) (filters : Filters)
    (init : list Response) (last : Response) (more : list Response)
    (inv : Inv) (j : list call) (fuel : nat) :
  Forall (fun page => has_next page = true) init ->
  has_next last = false ->
  length init < fuel ->
  exists reqs,
    fetch_vms fuel gw filters (mkState (mkScript (init ++ last :: more) []) inv j)
    = (Ok (records_of (init ++ [last])), mkState (mkScript more reqs) inv j)
    /\ reqs = (gw, mkReadVmsParams filters None) :: map (next_request gw filters) init
    /\ length reqs = length (init ++ [last]).
Proof.
  intros Hinit Hlast Hfuel. eexists. split; [|split; [reflexivity|]].
  - unfold fetch_vms. rewrite fetch_loop_script by assumption. reflexivity.
  - simpl. rewrite length_map, length_app. simpl. lia.
Qed.

Lemma C4_witness :
  exists reqs,
    fetch_vms 3 Examples.gateway [("TagKeys", ["env"])]
      (mkState (mkScript Examples.three_pages []) empty_inventory [])
    = (Ok (records_of Examples.three_pages),
       mkState (mkScript [] reqs) empty_inventory [])
    /\ reqs
       = [(Examples.gateway, mkReadVmsParams [("TagKeys", ["env"])] None);
          (Examples.gateway, mkReadVmsParams [("TagKeys", ["env"])] (Some (PStr "t1")));
          (Examples.gateway, mkReadVmsParams [("TagKeys", ["env"])] (Some (PStr "t2")))]
    /\ length reqs = 3.
Proof.
  apply (@C4_pagination_reads_every_page_once MemInventory _ Examples.gateway
           [("TagKeys", ["env"])]
           [Examples.page ["i-1"; "i-2"] (Some (PStr "t1"));
            Examples.page ["i-3"] (Some (PStr "t2"))]
           (Examples.page ["i-4"] (Some PNone)) [] empty_inventory [] 3).
  - repeat constructor.
  - reflexivity.
  - simpl. lia.
Defined.

(** ** The option validation and the address policy *)

Lemma contains_In (x : string) (xs : list string) : contains x xs = true <-> In x xs.
Proof.
  unfold contains. rewrite existsb_exists. split.
  - intros (y & Hy & Heq). apply String.eqb_eq in Heq. now subst.
  - intros Hin. exists x. split; [exact Hin|apply String.eqb_refl].
Qed.

Lemma ip_choice_declared (s : string) :
  contains s (declared_choices "ip_preference") = true <-> In (PStr s) ip_choices.
Proof.
  rewrite contains_In. unfold declared_choices, ip_choices. simpl.
  split; intros H; repeat (destruct H as [H|H]; [try injection H as H; subst; auto 6|]);
    contradiction.
Qed.

Lemma hostname_choice_declared (s : string) :
  contains s (declared_choices "hostname_variable") = true
  <-> In (PStr s) hostname_choices.
Proof.
  rewrite contains_In. unfold declared_choices, hostname_choices. simpl.
  split; intros H; repeat (destruct H as [H|H]; [try injection H as H; subst; auto 6|]);
    contradiction.
Qed.

Lemma rejected_choice_error (option_name : string) (field : option pyval) (e : exn) :
  rejected_choice option_name field = Some e ->
  exists value, e = AnsibleOptionsError option_name value.
Proof.
  unfold rejected_choice. destruct (get field) as [|s]; [discriminate|].
  destruct (contains s (declared_choices option_name)); [discriminate|].
  intros H. injection H as <-. eauto.
Qed.

Lemma rejected_dimension_error (field : option (list string)) (e : exn) :
  rejected_dimension field = Some e ->
  exists value, e = AnsibleOptionsError "group_by" value.
Proof.
  unfold rejected_dimension. destruct (find _ _); [|discriminate].
  intros H. injection H as <-. eauto.
Qed.

Lemma read_config_data_rejects (config : Config) (e : exn) :
  _read_config_data config = inl e ->
  exists option_name value, e = AnsibleOptionsError option_name value.
Proof.
  unfold _read_config_data.
  destruct (rejected_choice "hostname_variable" _) as [e1|] eqn:E1.
  { intros H. injection H as <-. apply rejected_choice_error in E1.
    destruct E1 as [v ->]. eauto. }
  destruct (rejected_choice "ip_preference" _) as [e2|] eqn:E2.
  { intros H. injection H as <-. apply rejected_choice_error in E2.
    destruct E2 as [v ->]. eauto. }
  destruct (rejected_dimension _) as [e3|] eqn:E3; [|discriminate].
  intros H. injection H as <-. apply rejected_dimension_error in E3.
  destruct E3 as [v ->]. eauto.
Qed.

Lemma read_config_data_passes (config : Config) :
  _read_config_data config = inr config ->
  rejected_choice "hostname_variable" (cfg_hostname_variable config) = None
  /\ rejected_choice "ip_preference" (cfg_ip_preference config) = None
  /\ rejected_dimension (cfg_group_by config) = None.
Proof.
  unfold _read_config_data.
  destruct (rejected_choice "hostname_variable" _); [discriminate|].
  destruct (rejected_choice "ip_preference" _); [discriminate|].
  destruct (rejected_dimension _); [discriminate|]. auto.
Qed.

(** A policy that passed the validation and is still not recognised was
    left out or configured null. *)
Lemma unvalidated_ip_preference (env : Env) (config : Config) :
  _read_config_data config = inr config ->
  ~ In (ip_preference (read_options env config)) ip_choices ->
  cfg_ip_preference config = None \/ cfg_ip_preference config = Some PNone.
Proof.
  intros Hpass Hout. apply read_config_data_passes in Hpass.
  destruct Hpass as (_ & Hip & _).
  destruct (cfg_ip_preference config) as [[|s]|] eqn:E; auto.
  exfalso. apply Hout. simpl. rewrite E. simpl.
  unfold rejected_choice in Hip. try rewrite E in Hip. cbn [get] in Hip.
  destruct (contains s (declared_choices "ip_preference")) eqn:Ec; [|discriminate].
  now apply ip_choice_declared.
Qed.

Lemma unvalidated_hostname_variable (env : Env) (config : Config) :
  _read_config_data config = inr config ->
  ~ In (hostname_variable (read_options env config)) hostname_choices ->
  cfg_hostname_variable config = Some PNone.
Proof.
  intros Hpass Hout. apply read_config_data_passes in Hpass.
  destruct Hpass as (Hhv & _ & _).
  destruct (cfg_hostname_variable config) as [[|s]|] eqn:E; auto.
  - exfalso. apply Hout. simpl. rewrite E. simpl.
    unfold rejected_choice in Hhv. try rewrite E in Hhv. cbn [get] in Hhv.
    destruct (contains s (declared_choices "hostname_variable")) eqn:Ec; [|discriminate].
    now apply hostname_choice_declared.
  - exfalso. apply Hout. simpl. rewrite E. simpl. auto.
Qed.

Section Validated.
Context {C Inv : Type} {cloud_ops : Cloud C} {inventory_ops : Inventory Inv}.

Lemma InventoryModule_parse_passes (fuel : nat) (HAS_OSC_SDK : bool) (env : Env)
    (config : Config) (st : state C Inv) :
  _read_config_data config = inr config ->
  InventoryModule_parse fuel HAS_OSC_SDK env config st
  = parse fuel HAS_OSC_SDK env config st.
Proof. unfold InventoryModule_parse. now intros ->. Qed.

Lemma InventoryModule_parse_rejects (fuel : nat) (HAS_OSC_SDK : bool) (env : Env)
    (config : Config) (st : state C Inv) (e : exn) :
  _read_config_data config = inl e ->
  InventoryModule_parse fuel HAS_OSC_SDK env config st = (Raise e, st).
Proof. unfold InventoryModule_parse. now intros ->. Qed.
End Validated.

(** C5 (as the code has it). An address policy configured as a string
    outside the three choices never reaches the records: the option
    validation of [_read_config_data] raises [AnsibleOptionsError] with
    nothing fetched and nothing registered.  A policy that [parse] reads as
    unrecognised past that validation was left out (read as
    ['public_or_private']) or configured null.  For such a policy nothing
    is raised before the records are processed: a run whose records all
    lack a usable hostname returns normally; otherwise the records before
    the first one with a usable hostname are skipped as usual, the fatal
    error is raised while that one is processed (its host is already
    added), and no later record is looked at. *)
Theorem C5_unvalidated_policy_raised_at_first_affected_record
    {C Inv : Type} {cloud_ops : Cloud C} {inventory_ops : Inventory Inv}
    (fuel : nat) (env : Env) (config : Config) :
  ~ In (ip_preference (read_options env config)) ip_choices ->
  (forall s,
      cfg_ip_preference config = Some (PStr s) ->
      forall (HAS_OSC_SDK : bool) (st : state C Inv),
      exists option_name value,
        InventoryModule_parse fuel HAS_OSC_SDK env config st
        = (Raise (AnsibleOptionsError option_name value), st))
  /\ (_read_config_data config = inr config ->
      (cfg_ip_preference config = None \/ cfg_ip_preference config = Some PNone)
      /\ (truthy (access_key (read_options env config)) = true ->
          truthy (secret_key (read_options env config)) = true ->
          (forall (st st1 : state C Inv) (unnamed : list Vm),
              fetch_vms fuel (gateway_params (read_options env config))
                (filters (read_options env config)) st = (Ok unnamed, st1) ->
              Forall (unresolvable (hostname_variable (read_options env config)))
                unnamed ->
              InventoryModule_parse fuel true env config st = (Ok tt, st1))
          /\ (forall (st st1 : state C Inv) (pre post : list Vm) (vm : Vm) (h : pyval),
                 fetch_vms fuel (gateway_params (read_options env config))
                   (filters (read_options env config)) st
                 = (Ok (pre ++ vm :: post)%list, st1) ->
                 Forall (unresolvable (hostname_variable (read_options env config)))
                   pre ->
                 resolvable (hostname_variable (read_options env config)) vm h ->
                 InventoryModule_parse fuel true env config st
                 = (Raise (invalid_ip_preference
                             (ip_preference (read_options env config))),
                    mkState (cloud st1) (add_host (str h) (inventory st1))
                      (journal st1 ++ [AddHost (str h)])%list)))).
Proof.
  intros Hout. split.
  - intros s Hcfg HAS st.
    destruct (_read_config_data config) as [e|c] eqn:Hread.
    + destruct (read_config_data_rejects _ Hread) as (o & v & ->).
      exists o, v. now apply InventoryModule_parse_rejects.
    + exfalso. unfold _read_config_data in Hread.
      destruct (rejected_choice "hostname_variable" _); [discriminate|].
      unfold rejected_choice at 1 in Hread. rewrite Hcfg in Hread. cbn [get] in Hread.
      destruct (contains s (declared_choices "ip_preference")) eqn:Ec;
        [|discriminate].
      apply Hout. simpl. rewrite Hcfg. simpl. now apply ip_choice_declared.
  - intros Hpass. split; [now apply (unvalidated_ip_preference env)|].
    intros Ha Hs. split.
    + intros st st1 unnamed Hfetch Hunnamed.
      rewrite InventoryModule_parse_passes by exact Hpass.
      erewrite parse_fetched by eassumption.
      now apply process_vms_all_skipped.
    + intros st st1 pre post vm h Hfetch Hpre Hvm.
      rewrite InventoryModule_parse_passes by exact Hpass.
      erewrite parse_fetched by eassumption.
      now apply process_vms_invalid_policy.
Qed.

Lemma C5_witness :
  InventoryModule_parse 3 true [] Examples.credentials
    (fresh (Examples.one_page [Examples.nameless; Examples.web1; Examples.nameless]))
  = (Raise (invalid_ip_preference (PStr "public_or_private")),
     mkState (mkScript []
                [(gateway_params (read_options [] Examples.credentials),
                  mkReadVmsParams [] None)])
       (mem_add_host "web:1" empty_inventory) [AddHost "web:1"])
  /\ InventoryModule_parse 3 true [] Examples.credentials
       (fresh (Examples.one_page [Examples.nameless; Examples.nameless]))
     = (Ok tt,
        mkState (mkScript []
                   [(gateway_params (read_options [] Examples.credentials),
                     mkReadVmsParams [] None)])
          empty_inventory []).
Proof.
  assert (Hout : ~ In (ip_preference (read_options [] Examples.credentials)) ip_choices)
    by (simpl; intros [H|[H|[H|[]]]]; discriminate).
  destruct (@C5_unvalidated_policy_raised_at_first_affected_record
              Script MemInventory _ _ 3 [] Examples.credentials Hout)
    as [_ Hvalidated].
  destruct (Hvalidated eq_refl) as [_ Hruns].
  destruct (Hruns eq_refl eq_refl) as [Hnone Hfirst].
  split.
  - refine (Hfirst
              (fresh (Examples.one_page
                        [Examples.nameless; Examples.web1; Examples.nameless]))
              (mkState (mkScript []
                          [(gateway_params (read_options [] Examples.credentials),
                            mkReadVmsParams [] None)])
                 empty_inventory [])
              [Examples.nameless] [Examples.nameless] Examples.web1 (PStr "web:1")
              _ _ _).
    + reflexivity.
    + repeat constructor. exists PNone. split; reflexivity.
    + split; reflexivity.
  - refine (Hnone
              (fresh (Examples.one_page [Examples.nameless; Examples.nameless]))
              (mkState (mkScript []
                          [(gateway_params (read_options [] Examples.credentials),
                            mkReadVmsParams [] None)])
                 empty_inventory [])
              [Examples.nameless; Examples.nameless] _ _).
    + reflexivity.
    + repeat constructor; exists PNone; split; reflexivity.
Defined.

(** An address policy configured as ['bogus'], with a record that has a
    usable hostname: the run ends in the option validation, with the
    provider not called and no host added; the error of line 170 is not
    raised, at the first record or anywhere. *)
Lemma C5_counterexample :
  InventoryModule_parse 3 true [] (Examples.with_policy "bogus" ["tags"; "state"])
    (fresh (Examples.one_page [Examples.nameless; Examples.web1]))
  = (Raise (AnsibleOptionsError "ip_preference" (PStr "bogus")),
     fresh (Examples.one_page [Examples.nameless; Examples.web1]))
  /\ fst (InventoryModule_parse 3 true []
            (Examples.with_policy "bogus" ["tags"; "state"])
            (fresh (Examples.one_page [Examples.nameless; Examples.web1])))
     <> Raise (invalid_ip_preference (PStr "bogus")).
Proof. split; [reflexivity|]. vm_compute. discriminate. Qed.

(** ** Tag groups *)

Lemma tag_joins_In (vm : Vm) (hostname key : string) (value : pyval) :
  In (key, value) (flatten_tags (Tags vm)) ->
  In (AddGroup (tag_group_name key value)) (tag_joins vm hostname)
  /\ In (AddChild (tag_group_name key value) hostname) (tag_joins vm hostname).
Proof.
  intros Hin. unfold tag_joins.
  split; apply in_flat_map; exists (key, value); simpl; auto.
Qed.

(** C7. When "tags" is among the grouping dimensions, a registered record
    joins, for every pair of its flattened tags and in their order, the
    group named ["tag_"], the key as it is, ["_"], and the value sanitised:
    the same length as the value, with [":"], ["/"] and [" "] turned into
    ["_"] and every other character kept.  The host is added, and made a
    child of these groups, under its hostname as determined, unsanitised. *)
Theorem C7_tag_groups_are_named_from_sanitised_values
    {C Inv : Type} {cloud_ops : Cloud C} {inventory_ops : Inventory Inv}
    (o : Options) (hostname hostname' : option pyval) (vm : Vm) (h : pyval)
    (st st' : state C Inv) :
  contains "tags" (group_by o) = true ->
  determine_hostname (hostname_variable o) vm hostname = Some h ->
  truthy h = true ->
  process_vm o hostname vm st = (Ok hostname', st') ->
  (exists before after,
      journal st'
      = (journal st ++ AddHost (str h) :: before ++ tag_joins vm (str h) ++ after)%list)
  /\ (forall key value,
         In (key, value) (flatten_tags (Tags vm)) ->
         In (AddGroup ("tag_" ++ key ++ "_" ++ safe_value value)) (journal st')
         /\ In (AddChild ("tag_" ++ key ++ "_" ++ safe_value value) (str h)) (journal st'))
  /\ (forall value,
         String.length (safe_value value)
         = String.length (str (py_or value (PStr EmptyString)))
         /\ forall n,
             String.get n (safe_value value)
             = option_map sanitized
                 (String.get n (str (py_or value (PStr EmptyString)))))
  /\ (forall c : ascii,
         (c = ":"%char \/ c = "/"%char \/ c = " "%char -> sanitized c = "_"%char)
         /\ (c <> ":"%char -> c <> "/"%char -> c <> " "%char -> sanitized c = c)).
Proof.
  intros Htags Hdet Htruthy Hrun.
  assert (Hreg : register_vm o vm (str h) st = (Ok tt, st'))
    by (eapply process_vm_ok_registered; eassumption).
  apply register_vm_ok in Hreg. destruct Hreg as (a & Hsel & _ & Hj).
  assert (Hdim : exists after,
             dimension_joins o vm (str h) = (tag_joins vm (str h) ++ after)%list).
  { unfold dimension_joins. rewrite Htags. eauto. }
  destruct Hdim as [after Hdim]. rewrite Hdim in Hj.
  split; [|split; [intros key value Hin; split|split; [intros value; split|intros c; split]]].
  - exists (map (fun item => SetVariable (str h) (fst item) (snd item))
              (written_variables vm a)
            ++ constructable_calls o
                 (read_host_vars (str h) (mapped_inventory vm a (str h) (inventory st)))
                 (str h))%list, after.
    rewrite Hj. unfold mapper_journal. simpl. now rewrite <- !app_assoc.
  - rewrite Hj. rewrite !in_app_iff. right. right. right. left.
    now apply (tag_joins_In vm (str h) key value).
  - rewrite Hj. rewrite !in_app_iff. right. right. right. left.
    now apply (tag_joins_In vm (str h) key value).
  - apply safe_value_length.
  - apply safe_value_get.
  - apply sanitized_hit.
  - apply sanitized_miss.
Qed.

Lemma C7_witness :
  In (AddGroup "tag_Name_web_1")
    (journal (snd (process_vm
                     (read_options [] (Examples.with_policy "prefer_public" ["tags"; "state"]))
                     None Examples.web1 (fresh []))))
  /\ In (AddChild "tag_Name_web_1" "web:1")
       (journal (snd (process_vm
                        (read_options [] (Examples.with_policy "prefer_public" ["tags"; "state"]))
                        None Examples.web1 (fresh [])))).
Proof.
  refine (proj1 (proj2
            (@C7_tag_groups_are_named_from_sanitised_values Script MemInventory _ _
               (read_options [] (Examples.with_policy "prefer_public" ["tags"; "state"]))
               None (Some (PStr "web:1")) Examples.web1 (PStr "web:1") (fresh [])
               (snd (process_vm
                       (read_options [] (Examples.with_policy "prefer_public" ["tags"; "state"]))
                       None Examples.web1 (fresh [])))
               _ _ _ _))
            "Name" (PStr "web:1") _).
  - reflexivity.
  - reflexivity.
  - reflexivity.
  - reflexivity.
  - left; reflexivity.
Defined.

(** ** Region *)

(** C8 (the code at the failing input and beyond). With [region] left out
    of the configuration the region is ['eu-west-2'] whatever the
    environment holds: the default handed to [config.get] is truthy, so the
    [or os.getenv('OSC_REGION')] that follows is never evaluated.  The
    gateway is built for that region too. *)
Theorem C8_omitted_region_never_reads_environment (env : Env) (config : Config) :
  cfg_region config = None ->
  region (read_options env config) = PStr "eu-west-2"
  /\ gw_region (gateway_params (read_options env config)) = Some (PStr "eu-west-2").
Proof. intros Hcfg. unfold gateway_params. simpl. rewrite Hcfg. split; reflexivity. Qed.

Lemma C8_witness :
  region (read_options [("OSC_REGION", "us-east-2")] Examples.credentials)
  = PStr "eu-west-2"
  /\ gw_region (gateway_params
                  (read_options [("OSC_REGION", "us-east-2")] Examples.credentials))
     = Some (PStr "eu-west-2").
Proof.
  apply (C8_omitted_region_never_reads_environment
           [("OSC_REGION", "us-east-2")] Examples.credentials).
  reflexivity.
Defined.

(** ** Unrecognised hostname strategy *)

(** C9 (as the code has it). A hostname strategy configured as a string
    outside the four choices is reported as a configuration error: the
    option validation of [_read_config_data] raises [AnsibleOptionsError]
    naming [hostname_variable], with nothing fetched.  The one value outside
    the four choices that passes the validation is null; with it no branch
    binds the local [hostname], the test [if not hostname] of the first
    record raises [UnboundLocalError] before anything is done to the
    inventory, and the run ends there. *)
Theorem C9_null_strategy_raises_UnboundLocalError
    {C Inv : Type} {cloud_ops : Cloud C} {inventory_ops : Inventory Inv}
    (fuel : nat) (env : Env) (config : Config) :
  ~ In (hostname_variable (read_options env config)) hostname_choices ->
  (forall s,
      cfg_hostname_variable config = Some (PStr s) ->
      forall (HAS_OSC_SDK : bool) (st : state C Inv),
        InventoryModule_parse fuel HAS_OSC_SDK env config st
        = (Raise (AnsibleOptionsError "hostname_variable" (PStr s)), st))
  /\ (_read_config_data config = inr config ->
      cfg_hostname_variable config = Some PNone
      /\ (truthy (access_key (read_options env config)) = true ->
          truthy (secret_key (read_options env config)) = true ->
          forall (st st1 : state C Inv) (vm : Vm) (rest : list Vm),
            fetch_vms fuel (gateway_params (read_options env config))
              (filters (read_options env config)) st = (Ok (vm :: rest), st1) ->
            InventoryModule_parse fuel true env config st
            = (Raise (UnboundLocalError "hostname"), st1))).
Proof.
  intros Hout. split.
  - intros s Hcfg HAS st. apply InventoryModule_parse_rejects.
    unfold _read_config_data, rejected_choice at 1. rewrite Hcfg. cbn [get].
    destruct (contains s (declared_choices "hostname_variable")) eqn:Ec;
      [|reflexivity].
    exfalso. apply Hout. simpl. rewrite Hcfg. simpl.
    now apply hostname_choice_declared.
  - intros Hpass. split; [now apply (unvalidated_hostname_variable env)|].
    intros Ha Hs st st1 vm rest Hfetch.
    rewrite InventoryModule_parse_passes by exact Hpass.
    erewrite parse_fetched by eassumption.
    rewrite process_vms_cons. apply bind_raise, process_vm_unbound.
    now apply determine_hostname_invalid.
Qed.

Lemma C9_witness :
  InventoryModule_parse 3 true []
    (mkConfig (Some (PStr "AK")) (Some (PStr "SK")) None None (Some PNone)
       (Some (PStr "prefer_public")) None None None None None)
    (fresh (Examples.one_page [Examples.web1; Examples.nameless]))
  = (Raise (UnboundLocalError "hostname"),
     mkState (mkScript [] [(Examples.gateway, mkReadVmsParams [] None)])
       empty_inventory []).
Proof.
  assert (Hout : ~ In (hostname_variable
                         (read_options []
                            (mkConfig (Some (PStr "AK")) (Some (PStr "SK")) None None
                               (Some PNone) (Some (PStr "prefer_public")) None None
                               None None None)))
                      hostname_choices)
    by (simpl; intros [H|[H|[H|[H|[]]]]]; discriminate).
  destruct (@C9_null_strategy_raises_UnboundLocalError Script MemInventory _ _ 3 []
              (mkConfig (Some (PStr "AK")) (Some (PStr "SK")) None None (Some PNone)
                 (Some (PStr "prefer_public")) None None None None None)
              Hout)
    as [_ Hvalidated].
  destruct (Hvalidated eq_refl) as [_ Hruns].
  refine (Hruns eq_refl eq_refl
            (fresh (Examples.one_page [Examples.web1; Examples.nameless]))
            _ Examples.web1 [Examples.nameless] _).
  reflexivity.
Defined.

(** A hostname strategy configured as ['name']: a configuration error is
    reported by the option validation, before any fetch; no
    [UnboundLocalError] is raised. *)
Lemma C9_counterexample :
  InventoryModule_parse 3 true [] (Examples.with_strategy "name" false)
    (fresh (Examples.one_page [Examples.web1; Examples.nameless]))
  = (Raise (AnsibleOptionsError "hostname_variable" (PStr "name")),
     fresh (Examples.one_page [Examples.web1; Examples.nameless]))
  /\ fst (InventoryModule_parse 3 true [] (Examples.with_strategy "name" false)
            (fresh (Examples.one_page [Examples.web1; Examples.nameless])))
     <> Raise (UnboundLocalError "hostname").
Proof. split; [reflexivity|]. vm_compute. discriminate. Qed.

(** ** What the abort leaves behind *)

(** C10. When the invalid address policy is raised for a record, [add_host]
    has run for it and nothing else has: the inventory is the one [add_host]
    returned, and the journal has grown by that one call, so no
    [set_variable] was made for the record.  In the in-memory inventory this is a
    host that is listed and whose variables read as before the run. *)
Theorem C10_abort_leaves_host_without_variables
    {C Inv : Type} {cloud_ops : Cloud C} {inventory_ops : Inventory Inv}
    (o : Options) (hostname : option pyval) (pre post : list Vm) (vm : Vm)
    (h : pyval) (st : state C Inv) :
  Forall (unresolvable (hostname_variable o)) pre ->
  resolvable (hostname_variable o) vm h ->
  ~ In (ip_preference o) ip_choices ->
  (exists st',
      process_vms o hostname (pre ++ vm :: post) st
      = (Raise (invalid_ip_preference (ip_preference o)), st')
      /\ inventory st' = add_host (str h) (inventory st)
      /\ journal st' = (journal st ++ [AddHost (str h)])%list)
  /\ (forall (inv : MemInventory),
         In (str h) (hosts (add_host (str h) inv))
         /\ forall var, host_var (str h) var (add_host (str h) inv)
                        = host_var (str h) var inv).
Proof.
  intros Hpre Hvm Hip. split.
  - eexists. split; [eapply process_vms_invalid_policy; eassumption|].
    simpl. split; reflexivity.
  - intros inv. split; [|reflexivity].
    simpl. unfold add_once.
    destruct (existsb (String.eqb (str h)) (hosts inv)) eqn:E.
    + apply existsb_exists in E. destruct E as (x & Hx & Heq).
      apply String.eqb_eq in Heq. now subst.
    + apply in_or_app. right. now left.
Qed.

Lemma C10_witness :
  (exists st',
      process_vms (read_options [] Examples.credentials) None
        [Examples.nameless; Examples.web1; Examples.nameless] (fresh [])
      = (Raise (invalid_ip_preference (PStr "public_or_private")), st')
      /\ inventory st' = mkMemInventory ["web:1"] [] [] []
      /\ journal st' = [AddHost "web:1"])
  /\ (forall (inv : MemInventory),
         In "web:1" (hosts (add_host "web:1" inv))
         /\ forall var, host_var "web:1" var (add_host "web:1" inv)
                        = host_var "web:1" var inv).
Proof.
  refine (@C10_abort_leaves_host_without_variables Script MemInventory _ _
            (read_options [] Examples.credentials) None
            [Examples.nameless] [Examples.nameless] Examples.web1 (PStr "web:1")
            (fresh []) _ _ _).
  - repeat constructor. exists PNone. split; reflexivity.
  - split; reflexivity.
  - simpl. intros [H|[H|[H|[]]]]; discriminate.
Defined.

(** ** Tag flattening on an example *)

Lemma C6_witness :
  dict_get "Name"
    (flatten_tags
       [mkTag "Name" (Some (PStr "old")); mkTag "env" None;
        mkTag "Name" (Some (PStr "web")); mkTag "Name" None])
  = Some (PStr "web")
  /\ flatten_tags [mkTag "env" (Some (PStr "prod")); mkTag "Name" (Some (PStr "db"))]
     = [("env", PStr "prod"); ("Name", PStr "db")].
Proof.
  split.
  - refine (proj1
              (C6_flatten_tags_last_write_and_Name
                 [mkTag "Name" (Some (PStr "old")); mkTag "env" None;
                  mkTag "Name" (Some (PStr "web")); mkTag "Name" None])
              [mkTag "Name" (Some (PStr "old")); mkTag "env" None]
              (mkTag "Name" (Some (PStr "web"))) [mkTag "Name" None] (PStr "web")
              _ _ _).
    + reflexivity.
    + reflexivity.
    + intros t' [<-|[]] _. reflexivity.
  - refine (proj1 (proj2 (proj2 (proj2
              (C6_flatten_tags_last_write_and_Name
                 [mkTag "env" (Some (PStr "prod")); mkTag "Name" (Some (PStr "db"))]))))
              _).
    simpl. repeat constructor; simpl; intuition discriminate.
Defined.


(** * Further properties of the module *)

(** ** Which files the plugin takes *)

Lemma endswith_refl (s : string) : endswith s s = true.
Proof. destruct s; cbn [endswith]; rewrite String.eqb_refl; reflexivity. Qed.

Lemma endswith_append (prefix suffix : string) :
  endswith (prefix ++ suffix) suffix = true.
Proof.
  induction prefix as [|c prefix IH]; cbn [append endswith].
  - apply endswith_refl.
  - rewrite IH. apply orb_true_r.
Qed.

Lemma endswith_split (s suffix : string) :
  endswith s suffix = true -> exists prefix, s = prefix ++ suffix.
Proof.
  induction s as [|c s IH]; cbn [endswith]; intros H.
  - rewrite orb_false_r in H. apply String.eqb_eq in H. subst. now exists EmptyString.
  - apply orb_true_iff in H. destruct H as [H|H].
    + apply String.eqb_eq in H. exists EmptyString. now rewrite H.
    + destruct (IH H) as [prefix ->]. now exists (String c prefix).
Qed.

(** X1. [verify_file] accepts a path exactly when the inherited check
    accepts it and the path is some text, possibly empty and with no
    separator required, followed by [outscale.yaml] or [outscale.yml]. *)
Theorem X1_verify_file_accepts_outscale_suffixes
    (base_verify_file : string -> bool) (path : string) :
  verify_file base_verify_file path = true
  <-> base_verify_file path = true
      /\ exists prefix,
           path = prefix ++ "outscale.yaml" \/ path = prefix ++ "outscale.yml".
Proof.
  unfold verify_file. cbv zeta. split.
  - destruct (base_verify_file path); [|discriminate].
    destruct (endswith path "outscale.yaml") eqn:Ea.
    + intros _. split; auto. destruct (endswith_split _ _ Ea) as [p Hp]. eauto.
    + destruct (endswith path "outscale.yml") eqn:Eb; [|discriminate].
      intros _. split; auto. destruct (endswith_split _ _ Eb) as [p Hp]. eauto.
  - intros [-> [prefix [->| ->]]]; rewrite endswith_append; auto.
    now rewrite orb_true_r.
Qed.

Lemma X1_witness :
  verify_file (fun _ => true) "inventories/prod.outscale.yml" = true
  /\ verify_file (fun _ => true) "myoutscale.yaml" = true.
Proof.
  split.
  - apply (proj2 (X1_verify_file_accepts_outscale_suffixes (fun _ => true)
                    "inventories/prod.outscale.yml")).
    split; [reflexivity|]. exists "inventories/prod.". right. reflexivity.
  - apply (proj2 (X1_verify_file_accepts_outscale_suffixes (fun _ => true)
                    "myoutscale.yaml")).
    split; [reflexivity|]. exists "my". left. reflexivity.
Defined.

(** ** Checks made before the provider is called *)



(** ** A region configured empty *)



(** ** The fetch and the inventory *)

Section FetchFacts.
Context {C Inv : Type} {cloud_ops : Cloud C} {inventory_ops : Inventory Inv}.

Lemma read_vms_keeps_inventory (gw : GatewayParams) (params : ReadVmsParams)
    (st st' : state C Inv) (r : outcome Response) :
  read_vms gw params st = (r, st') ->
  inventory st' = inventory st /\ journal st' = journal st.
Proof.
  unfold read_vms. destruct (ReadVms gw params (cloud st)) as [[e|page] c];
    intros H; injection H as _ <-; auto.
Qed.

Lemma fetch_loop_keeps_inventory (fuel : nat) :
  forall gw params next_token vms (st st' : state C Inv) (r : outcome (list Vm)),
    fetch_loop fuel gw params next_token vms st = (r, st') ->
    inventory st' = inventory st /\ journal st' = journal st.
Proof.
  induction fuel as [|fuel IH]; intros gw params tok vms st st' r; cbn [fetch_loop].
  - intros H. injection H as _ <-. auto.
  - unfold bind at 1.
    match goal with |- context [read_vms ?g ?p st] =>
      destruct (read_vms g p st) as [[page|e|] st1] eqn:Hread end;
      apply read_vms_keeps_inventory in Hread; destruct Hread as [Hi Hj].
    + destruct (negb (truthy (get (resp_NextPageToken page)))).
      * unfold ret. intros H. injection H as _ <-. auto.
      * intros H. apply IH in H. destruct H. split; congruence.
    + intros H. injection H as _ <-. auto.
    + intros H. injection H as _ <-. auto.
Qed.
End FetchFacts.

(** X4. The fetch never touches the inventory, and nothing is registered
    before it is over: when a [ReadVms] call raises, on whatever page,
    [parse] ends with that same exception, and the inventory and the journal
    are as they were before the run; the records of the pages already read
    are dropped. *)
Theorem X4_provider_failure_registers_nothing
    {C Inv : Type} {cloud_ops : Cloud C} {inventory_ops : Inventory Inv}
    (fuel : nat) (env : Env) (config : Config) (st st1 : state C Inv) (e : exn) :
  truthy (access_key (read_options env config)) = true ->
  truthy (secret_key (read_options env config)) = true ->
  fetch_vms fuel (gateway_params (read_options env config))
    (filters (read_options env config)) st = (Raise e, st1) ->
  parse fuel true env config st = (Raise e, st1)
  /\ inventory st1 = inventory st
  /\ journal st1 = journal st.
Proof.
  intros Ha Hs Hfetch. split.
  - unfold parse. rewrite Ha, Hs. cbn [negb orb]. now apply bind_raise.
  - unfold fetch_vms in Hfetch. now apply fetch_loop_keeps_inventory in Hfetch.
Qed.

Lemma X4_witness :
  parse 5 true [] (Examples.with_policy "prefer_public" ["tags"])
    (fresh [mkResponse (Some [Examples.web1]) (Some (PStr "t1"))])
  = (Raise (ProviderError "no page left"),
     mkState
       (mkScript []
          [(Examples.gateway, mkReadVmsParams [] None);
           (Examples.gateway, mkReadVmsParams [] (Some (PStr "t1")))])
       empty_inventory [])
  /\ empty_inventory = empty_inventory
  /\ @nil call = [].
Proof.
  refine (@X4_provider_failure_registers_nothing Script MemInventory _ _ 5 []
            (Examples.with_policy "prefer_public" ["tags"])
            (fresh [mkResponse (Some [Examples.web1]) (Some (PStr "t1"))])
            (mkState
               (mkScript []
                  [(Examples.gateway, mkReadVmsParams [] None);
                   (Examples.gateway, mkReadVmsParams [] (Some (PStr "t1")))])
               empty_inventory [])
            (ProviderError "no page left") _ _ _).
  - reflexivity.
  - reflexivity.
  - reflexivity.
Defined.

(** X5. The loop has no bound of its own: against a provider that keeps
    answering with a truthy continuation token the fetch does not return,
    however many iterations it is allowed. *)
Theorem X5_endless_tokens_never_return
    {C Inv : Type} {cloud_ops : Cloud C} {inventory_ops : Inventory Inv}
    (more_to_come : C -> Prop) (gw : GatewayParams) (filters : Filters)
    (st : state C Inv) :
  (forall gw params c,
      more_to_come c ->
      exists page c',
        ReadVms gw params c = (inr page, c')
        /\ has_next page = true /\ more_to_come c') ->
  more_to_come (cloud st) ->
  forall fuel, fst (fetch_vms fuel gw filters st) = OutOfFuel.
Proof.
  intros Hstep Hst fuel. unfold fetch_vms.
  generalize (mkReadVmsParams filters None) PNone (@nil Vm).
  revert st Hst. induction fuel as [|fuel IH]; intros st Hst params tok vms.
  - reflexivity.
  - cbn [fetch_loop]. unfold bind at 1. unfold read_vms.
    match goal with |- context [ReadVms ?g ?p (cloud st)] =>
      destruct (Hstep g p (cloud st) Hst) as (page & c' & -> & Hnext & Hc') end.
    unfold has_next in Hnext. rewrite Hnext. cbn [negb].
    apply IH. exact Hc'.
Qed.

Lemma X5_witness :
  fst (fetch_vms 50 Examples.gateway []
         (mkState (mkRepeating (mkResponse (Some [Examples.web1]) (Some (PStr "t"))) 0)
            empty_inventory []))
  = OutOfFuel.
Proof.
  refine (@X5_endless_tokens_never_return Repeating MemInventory _ _
            (fun c => has_next (answer c) = true) Examples.gateway []
            (mkState (mkRepeating (mkResponse (Some [Examples.web1]) (Some (PStr "t"))) 0)
               empty_inventory [])
            _ _ 50).
  - intros gw params c Hc. exists (answer c), (mkRepeating (answer c) (S (served c))).
    repeat split; assumption.
  - reflexivity.
Defined.

(** ** The connection address *)

(** X6. Under a recognised policy the address chosen for [ansible_host] is
    never made up: when truthy it is the record's public or private address.
    [public_only] never yields the private address and [private_only] never
    the public one, even when it is the only one the record has;
    [prefer_public] yields the private address exactly when the public one
    is empty or absent. *)
Theorem X6_ansible_host_is_an_address_of_the_record
    (ip_preference : pyval) (vm : Vm) (a : pyval) :
  select_ansible_host ip_preference vm = inr a ->
  In ip_preference ip_choices
  /\ (truthy a = true -> a = get (PublicIp vm) \/ a = get (PrivateIp vm))
  /\ (ip_preference = PStr "public_only" ->
      a = if truthy (get (PublicIp vm)) then get (PublicIp vm) else PNone)
  /\ (ip_preference = PStr "private_only" ->
      a = if truthy (get (PrivateIp vm)) then get (PrivateIp vm) else PNone)
  /\ (ip_preference = PStr "prefer_public" ->
      a = if truthy (get (PublicIp vm)) then get (PublicIp vm) else get (PrivateIp vm)).
Proof.
  unfold select_ansible_host. cbv zeta.
  destruct (py_eq ip_preference "public_only") eqn:E1;
    [|destruct (py_eq ip_preference "private_only") eqn:E2;
      [|destruct (py_eq ip_preference "prefer_public") eqn:E3; [|discriminate]]];
    intros H; injection H as <-;
    match goal with
    | E : py_eq _ _ = true |- _ => apply py_eq_true in E; subst ip_preference
    end;
    (split; [simpl; tauto|]);
    (split; [destruct (truthy (get (PublicIp vm))), (truthy (get (PrivateIp vm)));
             simpl; auto; discriminate|]);
    repeat split; intros Heq; try discriminate; reflexivity.
Qed.

Lemma X6_witness :
  In (PStr "private_only") ip_choices
  /\ (truthy PNone = true ->
      PNone = get (PublicIp Examples.web1) \/ PNone = get (PrivateIp Examples.web1))
  /\ (PStr "private_only" = PStr "public_only" ->
      PNone = if truthy (get (PublicIp Examples.web1))
              then get (PublicIp Examples.web1) else PNone)
  /\ (PStr "private_only" = PStr "private_only" ->
      PNone = if truthy (get (PrivateIp Examples.web1))
              then get (PrivateIp Examples.web1) else PNone)
  /\ (PStr "private_only" = PStr "prefer_public" ->
      PNone = if truthy (get (PublicIp Examples.web1))
              then get (PublicIp Examples.web1) else get (PrivateIp Examples.web1)).
Proof.
  apply (@X6_ansible_host_is_an_address_of_the_record
           (PStr "private_only") Examples.web1 PNone).
  reflexivity.
Defined.

(** ** The variables of a host *)

Lemma dimension_joins_In_grouping (o : Options) (vm : Vm) (hostname : string) (c : call) :
  In c (dimension_joins o vm hostname) -> is_grouping_call c = true.
Proof.
  intros Hin. pose proof (dimension_joins_kinds o vm hostname) as H.
  rewrite Forall_forall in H. now apply H.
Qed.

(** X7. A record that is registered to the end has its five [outscale_]
    variables set, each exactly as read from the record ([None] when the
    field is absent, the flattened tags as a dictionary); [ansible_host] is
    set for it exactly when the policy found a truthy address, and then to
    that address. *)
Theorem X7_five_variables_always_ansible_host_when_found
    {C Inv : Type} {cloud_ops : Cloud C} {inventory_ops : Inventory Inv}
    (o : Options) (hostname hostname' : option pyval) (vm : Vm) (h : pyval)
    (st st' : state C Inv) :
  determine_hostname (hostname_variable o) vm hostname = Some h ->
  truthy h = true ->
  process_vm o hostname vm st = (Ok hostname', st') ->
  exists a delta,
    select_ansible_host (ip_preference o) vm = inr a
    /\ journal st' = (journal st ++ delta)%list
    /\ (forall v,
           In (SetVariable (str h) "ansible_host" v) delta
           <-> truthy a = true /\ v = VScalar a)
    /\ In (SetVariable (str h) "outscale_vm_id" (VScalar (get (VmId vm)))) delta
    /\ In (SetVariable (str h) "outscale_state" (VScalar (get (State vm)))) delta
    /\ In (SetVariable (str h) "outscale_vm_type" (VScalar (get (VmType vm)))) delta
    /\ In (SetVariable (str h) "outscale_subregion" (VScalar (vm_subregion vm))) delta
    /\ In (SetVariable (str h) "outscale_tags" (VDict (flatten_tags (Tags vm)))) delta.
Proof.
  intros Hdet Htruthy Hrun.
  assert (Hreg : register_vm o vm (str h) st = (Ok tt, st'))
    by (eapply process_vm_ok_registered; eassumption).
  apply register_vm_ok in Hreg. destruct Hreg as (a & Hsel & _ & Hj).
  exists a. eexists. split; [exact Hsel|]. split; [exact Hj|].
  split.
  - intros v. rewrite !in_app_iff. split.
    + intros [Hin|[Hin|Hin]].
      * unfold mapper_journal, written_variables in Hin.
        destruct (truthy a); simpl in Hin;
          repeat (destruct Hin as [Hin|Hin]; [try discriminate|]);
          try contradiction.
        injection Hin as <-. auto.
      * simpl in Hin. repeat (destruct Hin as [Hin|Hin]; [discriminate|]).
        contradiction.
      * apply dimension_joins_In_grouping in Hin. discriminate.
    + intros [Ha ->]. left. unfold mapper_journal, written_variables.
      rewrite Ha. simpl. auto.
  - unfold mapper_journal, written_variables.
    repeat split; apply in_or_app; left; destruct (truthy a); simpl; auto 10.
Qed.

Lemma X7_witness :
  exists a delta,
    select_ansible_host (PStr "private_only") Examples.web1 = inr a
    /\ journal (snd (process_vm
                       (read_options [] (Examples.with_policy "private_only" ["state"]))
                       None Examples.web1 (fresh [])))
       = ([] ++ delta)%list
    /\ (forall v,
           In (SetVariable "web:1" "ansible_host" v) delta
           <-> truthy a = true /\ v = VScalar a)
    /\ In (SetVariable "web:1" "outscale_vm_id" (VScalar (PStr "i-1"))) delta
    /\ In (SetVariable "web:1" "outscale_state" (VScalar (PStr "running"))) delta
    /\ In (SetVariable "web:1" "outscale_vm_type" (VScalar PNone)) delta
    /\ In (SetVariable "web:1" "outscale_subregion" (VScalar PNone)) delta
    /\ In (SetVariable "web:1" "outscale_tags" (VDict [("Name", PStr "web:1")])) delta.
Proof.
  refine (@X7_five_variables_always_ansible_host_when_found Script MemInventory _ _
            (read_options [] (Examples.with_policy "private_only" ["state"]))
            None (Some (PStr "web:1")) Examples.web1 (PStr "web:1") (fresh [])
            (snd (process_vm
                    (read_options [] (Examples.with_policy "private_only" ["state"]))
                    None Examples.web1 (fresh [])))
            _ _ _).
  - reflexivity.
  - reflexivity.
  - reflexivity.
Defined.

(** ** What the helpers are given *)

Lemma host_var_names_NoDup : NoDup host_var_names.
Proof.
  unfold host_var_names.
  repeat (constructor; [simpl; intuition discriminate|]). constructor.
Qed.

Section HostVars.
Context {Inv : Type} {inventory_ops : Inventory Inv}.
Variables (hostname : string) (inv : Inv).

(** The entry a name contributes to [host_vars]. *)
Let entry (var : string) : list (string * value) :=
  match unless_None (host_var hostname var inv) with
  | Some v => [(var, v)]
  | None => []
  end.

Lemma entry_keys (names : list string) (k : string) :
  In k (dict_keys (flat_map entry names)) -> In k names.
Proof.
  induction names as [|var names IH]; simpl; auto.
  unfold dict_keys in *. rewrite map_app, in_app_iff.
  intros [Hin|Hin]; auto.
  left. unfold entry in Hin. destruct (unless_None _); simpl in Hin; tauto.
Qed.

Lemma read_from_distinct (names : list string) :
  NoDup names ->
  forall acc,
    (forall k, In k names -> ~ In k (dict_keys acc)) ->
    fold_left
      (fun host_vars var =>
         let value := host_var hostname var inv in
         if negb (is_None value) then dict_set var value host_vars else host_vars)
      names acc
    = (acc ++ flat_map entry names)%list.
Proof.
  induction 1 as [|var names Hvar _ IH]; intros acc Hacc; simpl.
  - now rewrite app_nil_r.
  - rewrite IH.
    + unfold entry at 2, unless_None.
      destruct (is_None (host_var hostname var inv)); simpl; auto.
      rewrite dict_set_fresh by (apply Hacc; now left).
      now rewrite <- app_assoc.
    + intros k Hk. destruct (is_None (host_var hostname var inv)); simpl.
      * apply Hacc. now right.
      * rewrite dict_keys_set.
        destruct (existsb (String.eqb var) (dict_keys acc)).
        -- apply Hacc. now right.
        -- unfold dict_keys. rewrite in_app_iff. intros [Hin|[<-|[]]].
           ++ apply (Hacc k); [now right|exact Hin].
           ++ contradiction.
Qed.

Lemma read_host_vars_entries :
  read_host_vars hostname inv = flat_map entry host_var_names.
Proof.
  unfold read_host_vars. rewrite read_from_distinct; auto using host_var_names_NoDup.
Qed.

Lemma entries_NoDup (names : list string) :
  NoDup names -> NoDup (dict_keys (flat_map entry names)).
Proof.
  induction 1 as [|var names Hvar _ IH]; simpl; [constructor|].
  unfold dict_keys in *. rewrite map_app. unfold entry at 1.
  destruct (unless_None _); simpl; auto.
  constructor; auto. intros Hin. apply Hvar. now apply entry_keys.
Qed.

Lemma entries_get (names : list string) (var : string) :
  In var names ->
  dict_get var (flat_map entry names) = unless_None (host_var hostname var inv).
Proof.
  induction names as [|x names IH]; simpl; [contradiction|].
  intros Hin. unfold entry at 1.
  destruct (String.eqb_spec x var) as [->|Hx].
  - destruct (unless_None (host_var hostname var inv)) as [v|] eqn:E; simpl.
    + now rewrite String.eqb_refl.
    + destruct (in_dec string_dec var names) as [Hin'|Hout]; auto.
      apply dict_get_None_keys. intros Hk. apply Hout. now apply entry_keys in Hk.
  - destruct Hin as [->|Hin]; [contradiction|].
    destruct (unless_None (host_var hostname x inv)); simpl; auto.
    destruct (String.eqb_spec x var); [contradiction|auto].
Qed.

Lemma read_host_vars_get (var : string) :
  In var host_var_names ->
  dict_get var (read_host_vars hostname inv) = unless_None (host_var hostname var inv).
Proof. rewrite read_host_vars_entries. apply entries_get. Qed.
End HostVars.

(** X8. The [host_vars] handed to the helpers hold, in the order
    [ansible_host], [outscale_vm_id], [outscale_state], [outscale_vm_type],
    [outscale_subregion], [outscale_tags], exactly the names whose value
    read back from the inventory is not [None], each once and with that
    value; no entry is ever [None] and no other name appears. *)
Theorem X8_host_vars_hold_the_set_names_only
    {Inv : Type} {inventory_ops : Inventory Inv} (hostname : string) (inv : Inv) :
  read_host_vars hostname inv
  = flat_map
      (fun var =>
         match unless_None (host_var hostname var inv) with
         | Some v => [(var, v)]
         | None => []
         end)
      host_var_names
  /\ NoDup (dict_keys (read_host_vars hostname inv))
  /\ Forall
       (fun item =>
          In (fst item) host_var_names
          /\ is_None (snd item) = false
          /\ snd item = host_var hostname (fst item) inv)
       (read_host_vars hostname inv).
Proof.
  split; [apply read_host_vars_entries|]. split.
  - rewrite read_host_vars_entries. apply entries_NoDup, host_var_names_NoDup.
  - rewrite read_host_vars_entries. apply Forall_forall. intros [k v] Hin.
    apply in_flat_map in Hin. destruct Hin as (var & Hvar & Hin).
    unfold unless_None in Hin.
    destruct (is_None (host_var hostname var inv)) eqn:E; simpl in Hin; [contradiction|].
    destruct Hin as [Hin|[]]. injection Hin as <- <-. simpl. auto.
Qed.

Lemma mem_reads_back : @reads_back MemInventory _.
Proof.
  repeat split.
  - intros host var v inv. simpl. unfold mem_host_var, mem_set_variable. simpl.
    rewrite dict_get_set_same. simpl. now rewrite dict_get_set_same.
  - intros host var var' v inv Hne. simpl. unfold mem_host_var, mem_set_variable.
    simpl. rewrite dict_get_set_same. simpl.
    rewrite dict_get_set_other by exact Hne.
    now destruct (dict_get host (vars inv)).
Qed.

Section ReadBack.
Context {Inv : Type} {inventory_ops : Inventory Inv}.
Hypothesis laws : @reads_back Inv inventory_ops.

Lemma host_var_mapped (vm : Vm) (a : pyval) (hostname var : string) (inv : Inv) :
  host_var hostname var (mapped_inventory vm a hostname inv)
  = match dict_get var (written_variables vm a) with
    | Some v => v
    | None => host_var hostname var inv
    end.
Proof.
  destruct laws as (Hadd & Hsame & Hother).
  unfold mapped_inventory.
  rewrite <- (Hadd hostname var inv).
  generalize (add_host hostname inv) as inv0.
  assert (Hnd : NoDup (dict_keys (written_variables vm a))).
  { unfold written_variables. destruct (truthy a); simpl;
      repeat (constructor; [simpl; intuition discriminate|]); constructor. }
  induction (written_variables vm a) as [|[k v] l IH]; intros inv0; simpl; auto.
  inversion Hnd as [|? ? Hk Hl]; subst.
  rewrite IH by exact Hl.
  destruct (String.eqb_spec k var) as [->|Hne].
  - assert (E : dict_get var l = None) by now apply dict_get_None_keys.
    rewrite E. apply Hsame.
  - destruct (dict_get var l); auto.
Qed.
End ReadBack.

(** X9. On an inventory that reads back what was set, the [host_vars] of a
    record are the mapper's writes with the [None] values left out:
    [outscale_tags] is always there (an empty dictionary when the record has
    no tags), the four string variables are there when the record has the
    field non-null, and [ansible_host] is the chosen address when one was
    found.  When none was found, [ansible_host] is whatever the inventory
    already held for a host of that name, such as the address of an earlier
    record with the same hostname. *)
Theorem X9_host_vars_are_the_writes_and_what_was_there
    {Inv : Type} {inventory_ops : Inventory Inv}
    (vm : Vm) (a : pyval) (hostname : string) (inv : Inv) :
  @reads_back Inv inventory_ops ->
  dict_get "ansible_host" (read_host_vars hostname (mapped_inventory vm a hostname inv))
  = (if truthy a then Some (VScalar a)
     else unless_None (host_var hostname "ansible_host" inv))
  /\ dict_get "outscale_vm_id"
       (read_host_vars hostname (mapped_inventory vm a hostname inv))
     = unless_None (VScalar (get (VmId vm)))
  /\ dict_get "outscale_state"
       (read_host_vars hostname (mapped_inventory vm a hostname inv))
     = unless_None (VScalar (get (State vm)))
  /\ dict_get "outscale_vm_type"
       (read_host_vars hostname (mapped_inventory vm a hostname inv))
     = unless_None (VScalar (get (VmType vm)))
  /\ dict_get "outscale_subregion"
       (read_host_vars hostname (mapped_inventory vm a hostname inv))
     = unless_None (VScalar (vm_subregion vm))
  /\ dict_get "outscale_tags"
       (read_host_vars hostname (mapped_inventory vm a hostname inv))
     = Some (VDict (flatten_tags (Tags vm))).
Proof.
  intros laws.
  repeat split;
    (rewrite read_host_vars_get by (unfold host_var_names; simpl; auto 10));
    rewrite (host_var_mapped laws); unfold written_variables;
    destruct (truthy a) eqn:Ha; simpl; try reflexivity.
  unfold unless_None. destruct a as [|s]; simpl in *; [discriminate|reflexivity].
Qed.

Lemma X9_witness :
  dict_get "ansible_host"
    (read_host_vars "web:1"
       (mapped_inventory Examples.nameless PNone "web:1"
          (mapped_inventory Examples.web1 (PStr "1.2.3.4") "web:1" empty_inventory)))
  = Some (VScalar (PStr "1.2.3.4")).
Proof.
  refine (proj1 (@X9_host_vars_are_the_writes_and_what_was_there MemInventory _
                   Examples.nameless PNone "web:1"
                   (mapped_inventory Examples.web1 (PStr "1.2.3.4") "web:1" empty_inventory)
                   mem_reads_back)).
Defined.

(** ** A helper that raises *)

(** X10. When [_set_composite_vars] raises for a record, as it may under
    [strict], [process_vm] ends with that exception right there: the host
    has been added and its variables written, the journal ends with the
    helper call, and none of the record's groups has been created. *)
Theorem X10_raising_helper_stops_before_grouping
    {C Inv : Type} {cloud_ops : Cloud C} {inventory_ops : Inventory Inv}
    (o : Options) (hostname : option pyval) (vm : Vm) (h a : pyval)
    (st : state C Inv) (e : exn) (inv' : Inv) :
  determine_hostname (hostname_variable o) vm hostname = Some h ->
  truthy h = true ->
  select_ansible_host (ip_preference o) vm = inr a ->
  _set_composite_vars (compose o)
    (read_host_vars (str h) (mapped_inventory vm a (str h) (inventory st)))
    (str h) (strict o) (mapped_inventory vm a (str h) (inventory st))
  = (Some e, inv') ->
  process_vm o hostname vm st
  = (Raise e,
     mkState (cloud st) inv'
       (journal st
        ++ mapper_journal vm a (str h)
        ++ [SetCompositeVars (compose o)
              (read_host_vars (str h) (mapped_inventory vm a (str h) (inventory st)))
              (str h) (strict o)])%list).
Proof.
  intros Hdet Htruthy Hsel Hraise.
  erewrite process_vm_register by eassumption.
  apply bind_raise.
  erewrite register_vm_mapped by exact Hsel.
  apply bind_raise. unfold apply_constructable. apply bind_raise.
  unfold constructable_call. cbn [inventory cloud journal].
  rewrite Hraise. now rewrite <- app_assoc.
Qed.

Lemma X10_witness :
  process_vm (read_options [] (Examples.with_strategy "tag_Name" true)) None
    Examples.web1 (fresh [])
  = (Raise (AnsibleError (Msg "Could not evaluate compose for web:1")),
     mkState (mkScript [] [])
       (mapped_inventory Examples.web1 (PStr "1.2.3.4") "web:1" empty_inventory)
       ([] ++ mapper_journal Examples.web1 (PStr "1.2.3.4") "web:1"
           ++ [SetCompositeVars [("role", "tags.role")]
                 (read_host_vars "web:1"
                    (mapped_inventory Examples.web1 (PStr "1.2.3.4") "web:1"
                       empty_inventory))
                 "web:1" true])%list).
Proof.
  refine (@X10_raising_helper_stops_before_grouping Script MemInventory _ _
            (read_options [] (Examples.with_strategy "tag_Name" true)) None
            Examples.web1 (PStr "web:1") (PStr "1.2.3.4") (fresh [])
            (AnsibleError (Msg "Could not evaluate compose for web:1"))
            (mapped_inventory Examples.web1 (PStr "1.2.3.4") "web:1" empty_inventory)
            _ _ _ _).
  - reflexivity.
  - reflexivity.
  - reflexivity.
  - reflexivity.
Defined.

(** ** The groups a host joins *)

Lemma truthy_str_nonempty (v : pyval) : truthy v = true -> str v <> EmptyString.
Proof.
  destruct v as [|s]; simpl; [discriminate|].
  destruct (String.eqb_spec s EmptyString); [discriminate|auto].
Qed.

Lemma dimension_joins_groups (o : Options) (vm : Vm) (hostname : string) :
  dimension_joins o vm hostname
  = flat_map (fun group => joins group hostname) (dimension_groups o vm).
Proof.
  unfold dimension_joins, dimension_groups.
  rewrite !flat_map_app.
  f_equal; [|f_equal; [|f_equal; [|f_equal]]].
  - destruct (contains "tags" (group_by o)); auto.
    unfold tag_joins. induction (flatten_tags (Tags vm)) as [|item d IH]; simpl; auto.
    now rewrite IH.
  - destruct (contains "region" (group_by o) && truthy (region o)); reflexivity.
  - destruct (contains "subregion" (group_by o)), (truthy (vm_subregion vm)); reflexivity.
  - destruct (contains "vm_type" (group_by o)), (truthy (get (VmType vm))); reflexivity.
  - destruct (contains "state" (group_by o)), (truthy (get (State vm))); reflexivity.
Qed.

Lemma dimension_groups_nonempty (o : Options) (vm : Vm) :
  Forall (fun group => group <> EmptyString) (dimension_groups o vm).
Proof.
  unfold dimension_groups. repeat (apply Forall_app; split).
  - destruct (contains "tags" (group_by o)); [|constructor].
    apply Forall_forall. intros g Hg. apply in_map_iff in Hg.
    destruct Hg as (item & <- & _). discriminate.
  - destruct (contains "region" (group_by o)); simpl; [|constructor].
    destruct (truthy (region o)) eqn:E; constructor; auto using truthy_str_nonempty.
  - destruct (contains "subregion" (group_by o)); simpl; [|constructor].
    destruct (truthy (vm_subregion vm)) eqn:E; constructor;
      auto using truthy_str_nonempty.
  - destruct (contains "vm_type" (group_by o) && truthy (get (VmType vm)));
      constructor; [discriminate|constructor].
  - destruct (contains "state" (group_by o) && truthy (get (State vm)));
      constructor; [discriminate|constructor].
Qed.

(** X11. Whenever the dimension-based grouping of a record returns, the
    calls it has made on the inventory are, for each of the record's groups
    in turn, [add_group] of the group immediately followed by [add_child]
    of the host into it, and nothing else; none of the names passed is
    empty (a region, subregion, type or state that is empty or absent gives
    no group).  [group_by] is a list here, as declared. *)
Theorem X11_groups_are_created_before_joined_and_named
    {C Inv : Type} {cloud_ops : Cloud C} {inventory_ops : Inventory Inv}
    (o : Options) (vm : Vm) (hostname : string) (st st' : state C Inv) :
  add_to_groups o vm hostname st = (Ok tt, st') ->
  journal st'
  = (journal st
     ++ flat_map (fun group => [AddGroup group; AddChild group hostname])
          (dimension_groups o vm))%list
  /\ Forall (fun group => group <> EmptyString) (dimension_groups o vm)
  /\ (contains "tags" (group_by o) = true ->
      forall key value,
        In (key, value) (flatten_tags (Tags vm)) ->
        In (tag_group_name key value) (dimension_groups o vm)).
Proof.
  intros Hrun. split; [|split; [apply dimension_groups_nonempty|]].
  - destruct (journals_add_to_groups o vm hostname st) as [inv E].
    rewrite E in Hrun. injection Hrun as <-. simpl.
    now rewrite dimension_joins_groups.
  - intros Htags key value Hin. unfold dimension_groups. rewrite Htags.
    apply in_or_app. left. apply in_map_iff. now exists (key, value).
Qed.

Lemma X11_witness :
  journal (snd (add_to_groups
                  (read_options [] (Examples.with_policy "prefer_public" ["tags"; "state"]))
                  Examples.web1 "web:1" (fresh [])))
  = ([] ++ flat_map (fun group => [AddGroup group; AddChild group "web:1"])
             ["tag_Name_web_1"; "state_running"])%list
  /\ Forall (fun group => group <> EmptyString) ["tag_Name_web_1"; "state_running"]
  /\ (true = true ->
      forall key value,
        In (key, value) [("Name", PStr "web:1")] ->
        In (tag_group_name key value) ["tag_Name_web_1"; "state_running"]).
Proof.
  refine (@X11_groups_are_created_before_joined_and_named Script MemInventory _ _
            (read_options [] (Examples.with_policy "prefer_public" ["tags"; "state"]))
            Examples.web1 "web:1" (fresh [])
            (snd (add_to_groups
                    (read_options [] (Examples.with_policy "prefer_public"
                                        ["tags"; "state"]))
                    Examples.web1 "web:1" (fresh [])))
            _).
  vm_compute. reflexivity.
Defined.

(** X12. Only membership in [group_by] counts, not order or repetition:
    two configurations whose (valid) [group_by] lists hold the same
    dimensions and whose regions agree group a record in exactly the same
    way.  With all five dimensions listed, a grouping that returns has made
    its calls in the order tags (one group per flattened tag, in their
    order), region, subregion, vm_type, state. *)
Theorem X12_group_by_is_read_as_a_set
    {C Inv : Type} {cloud_ops : Cloud C} {inventory_ops : Inventory Inv}
    (o o' : Options) (vm : Vm) (hostname : string) (st : state C Inv) :
  Forall (fun dimension => In dimension group_by_choices) (group_by o) ->
  Forall (fun dimension => In dimension group_by_choices) (group_by o') ->
  (forall dimension, In dimension (group_by o) <-> In dimension (group_by o')) ->
  region o = region o' ->
  add_to_groups o vm hostname st = add_to_groups o' vm hostname st
  /\ ((forall dimension, In dimension group_by_choices -> In dimension (group_by o)) ->
      forall st',
        add_to_groups o vm hostname st = (Ok tt, st') ->
        journal st'
        = (journal st
           ++ flat_map
                (fun item =>
                   [AddGroup (tag_group_name (fst item) (snd item));
                    AddChild (tag_group_name (fst item) (snd item)) hostname])
                (flatten_tags (Tags vm))
           ++ (if truthy (region o)
               then [AddGroup (str (region o)); AddChild (str (region o)) hostname]
               else [])
           ++ (if truthy (vm_subregion vm)
               then [AddGroup (str (vm_subregion vm));
                     AddChild (str (vm_subregion vm)) hostname]
               else [])
           ++ (if truthy (get (VmType vm))
               then [AddGroup ("vm_type_" ++ str (get (VmType vm)))%string;
                     AddChild ("vm_type_" ++ str (get (VmType vm)))%string hostname]
               else [])
           ++ (if truthy (get (State vm))
               then [AddGroup ("state_" ++ str (get (State vm)))%string;
                     AddChild ("state_" ++ str (get (State vm)))%string hostname]
               else []))%list).
Proof.
  intros _ _ Hsame Hregion.
  assert (Hcontains : forall d, contains d (group_by o) = contains d (group_by o')).
  { intros d. destruct (contains d (group_by o)) eqn:E1, (contains d (group_by o')) eqn:E2;
      auto.
    - apply contains_In, Hsame, contains_In in E1. congruence.
    - apply contains_In, Hsame, contains_In in E2. congruence. }
  split.
  - unfold add_to_groups. rewrite Hregion. rewrite !Hcontains. reflexivity.
  - intros Hall st' Hrun.
    destruct (journals_add_to_groups o vm hostname st) as [inv E].
    rewrite E in Hrun. injection Hrun as <-. simpl.
    unfold dimension_joins, tag_joins, joins.
    assert (Hin : forall d, In d group_by_choices -> contains d (group_by o) = true)
      by (intros d Hd; apply contains_In; auto).
    rewrite !Hin by (unfold group_by_choices; simpl; auto 10).
    now destruct (truthy (region o)).
Qed.

Lemma X12_witness :
  add_to_groups
    (read_options [] (Examples.with_policy "prefer_public" ["state"; "tags"; "state"]))
    Examples.web1 "web:1" (fresh [])
  = add_to_groups
      (read_options [] (Examples.with_policy "prefer_public" ["tags"; "state"]))
      Examples.web1 "web:1" (fresh [])
  /\ journal (snd (add_to_groups (read_options [] Examples.credentials)
                     Examples.nameless "db" (fresh [])))
     = [AddGroup "tag_env_prod"; AddChild "tag_env_prod" "db";
        AddGroup "eu-west-2"; AddChild "eu-west-2" "db";
        AddGroup "eu-west-2a"; AddChild "eu-west-2a" "db";
        AddGroup "vm_type_tinav5.c1r1p2"; AddChild "vm_type_tinav5.c1r1p2" "db";
        AddGroup "state_stopped"; AddChild "state_stopped" "db"].
Proof.
  split.
  - refine (proj1 (@X12_group_by_is_read_as_a_set Script MemInventory _ _
                     (read_options [] (Examples.with_policy "prefer_public"
                                         ["state"; "tags"; "state"]))
                     (read_options [] (Examples.with_policy "prefer_public"
                                         ["tags"; "state"]))
                     Examples.web1 "web:1" (fresh []) _ _ _ _)).
    + simpl. repeat (apply Forall_cons; [simpl; auto 10|]). apply Forall_nil.
    + simpl. repeat (apply Forall_cons; [simpl; auto 10|]). apply Forall_nil.
    + intros d. simpl. tauto.
    + reflexivity.
  - refine (proj2 (@X12_group_by_is_read_as_a_set Script MemInventory _ _
                     (read_options [] Examples.credentials)
                     (read_options [] Examples.credentials)
                     Examples.nameless "db" (fresh []) _ _ _ _)
              _ (snd (add_to_groups (read_options [] Examples.credentials)
                        Examples.nameless "db" (fresh []))) _).
    + simpl. repeat (apply Forall_cons; [simpl; auto 10|]). apply Forall_nil.
    + simpl. repeat (apply Forall_cons; [simpl; auto 10|]). apply Forall_nil.
    + tauto.
    + reflexivity.
    + simpl. tauto.
    + vm_compute. reflexivity.
Defined.

(** ** A "Name" tag without a name *)

(** X13. Under [tag_Name] the [VmId] stands in only for a missing ["Name"]
    key: a record whose flattened tags hold ["Name"] with a null or empty
    value is skipped, with nothing done to the inventory, whatever its
    [VmId]. *)
Theorem X13_empty_Name_tag_skips_the_record
    {C Inv : Type} {cloud_ops : Cloud C} {inventory_ops : Inventory Inv}
    (o : Options) (hostname : option pyval) (vm : Vm) (v : pyval)
    (st : state C Inv) :
  hostname_variable o = PStr "tag_Name" ->
  dict_get "Name" (flatten_tags (Tags vm)) = Some v ->
  truthy v = false ->
  process_vm o hostname vm st = (Ok (Some v), st).
Proof.
  intros Hhv Hname Hfalsy. apply process_vm_skip; auto.
  rewrite Hhv. unfold determine_hostname. simpl. now rewrite Hname.
Qed.

Lemma X13_witness :
  process_vm (read_options [] (Examples.with_strategy "tag_Name" false)) None
    (mkVm (Some (PStr "i-9")) None None (Some (PStr "1.2.3.4")) None None
       [mkTag "Name" (Some (PStr EmptyString))])
    (fresh [])
  = (Ok (Some (PStr EmptyString)), fresh []).
Proof.
  refine (@X13_empty_Name_tag_skips_the_record Script MemInventory _ _
            (read_options [] (Examples.with_strategy "tag_Name" false)) None
            (mkVm (Some (PStr "i-9")) None None (Some (PStr "1.2.3.4")) None None
               [mkTag "Name" (Some (PStr EmptyString))])
            (PStr EmptyString) (fresh []) _ _ _).
  - reflexivity.
  - reflexivity.
  - reflexivity.
Defined.

(** ** One host per usable record, in order *)

Lemma added_hosts_app (j1 j2 : list call) :
  added_hosts (j1 ++ j2) = (added_hosts j1 ++ added_hosts j2)%list.
Proof. unfold added_hosts. apply flat_map_app. Qed.

Lemma added_hosts_grouping (j : list call) :
  Forall (fun c => is_grouping_call c = true) j -> added_hosts j = [].
Proof.
  induction 1 as [|c j Hc _ IH]; simpl; auto.
  destruct c; try discriminate; exact IH.
Qed.

Lemma added_hosts_mapper (vm : Vm) (a : pyval) (hostname : string) :
  added_hosts (mapper_journal vm a hostname) = [hostname].
Proof.
  unfold mapper_journal, written_variables. destruct (truthy a); reflexivity.
Qed.

(** Under a recognised strategy a loop that comes to its end has added
    the usable hostnames, in order. *)
Lemma process_vms_added_hosts
    {C Inv : Type} {cloud_ops : Cloud C} {inventory_ops : Inventory Inv}
    (o : Options) (vms : list Vm) :
  In (hostname_variable o) hostname_choices ->
  forall (hostname : option pyval) (st st' : state C Inv),
    process_vms o hostname vms st = (Ok tt, st') ->
    added_hosts (journal st')
    = (added_hosts (journal st) ++ usable_hostnames (hostname_variable o) vms)%list.
Proof.
  intros Hchoice. induction vms as [|vm vms IH]; intros hostname st st' Hrun.
  - simpl in Hrun. unfold ret in Hrun. injection Hrun as <-.
    simpl. now rewrite app_nil_r.
  - destruct (determine_hostname_valid vm hostname Hchoice) as [Hdet Hsome].
    destruct (resolved_hostname (hostname_variable o) vm) as [h|] eqn:Hres;
      [|congruence].
    rewrite process_vms_cons in Hrun. simpl usable_hostnames. rewrite Hres.
    destruct (truthy h) eqn:Htruthy.
    + unfold bind in Hrun.
      destruct (process_vm o hostname vm st) as [[hostname'| |] st1] eqn:Hvm;
        try discriminate.
      assert (Hreg : register_vm o vm (str h) st = (Ok tt, st1))
        by (eapply process_vm_ok_registered; eassumption).
      apply register_vm_ok in Hreg. destruct Hreg as (a & _ & _ & Hj).
      apply IH in Hrun. rewrite Hrun, Hj.
      rewrite !added_hosts_app, added_hosts_mapper.
      rewrite (added_hosts_grouping (dimension_joins_kinds o vm (str h))).
      simpl. now rewrite <- app_assoc.
    + erewrite bind_ok in Hrun by (apply process_vm_skip; eassumption).
      apply IH in Hrun. now rewrite Hrun.
Qed.

(** X14. Under a recognised hostname strategy, a run of [parse] that comes
    to its end has called [add_host] exactly once for every fetched record
    with a usable hostname, in the order of the fetch, and for no other
    name: records that share a hostname are added again, not merged
    beforehand. *)
Theorem X14_one_add_host_per_usable_record_in_order
    {C Inv : Type} {cloud_ops : Cloud C} {inventory_ops : Inventory Inv}
    (fuel : nat) (env : Env) (config : Config) (st st1 st' : state C Inv)
    (vms : list Vm) :
  In (hostname_variable (read_options env config)) hostname_choices ->
  fetch_vms fuel (gateway_params (read_options env config))
    (filters (read_options env config)) st = (Ok vms, st1) ->
  parse fuel true env config st = (Ok tt, st') ->
  added_hosts (journal st')
  = (added_hosts (journal st)
     ++ usable_hostnames (hostname_variable (read_options env config)) vms)%list.
Proof.
  intros Hchoice Hfetch Hrun.
  assert (Hj : journal st1 = journal st).
  { unfold fetch_vms in Hfetch. now apply fetch_loop_keeps_inventory in Hfetch. }
  unfold parse in Hrun. cbn [negb] in Hrun.
  destruct (negb (truthy (access_key (read_options env config)))
            || negb (truthy (secret_key (read_options env config)))).
  { unfold raise in Hrun. discriminate. }
  erewrite bind_ok in Hrun by exact Hfetch.
  rewrite <- Hj. eapply process_vms_added_hosts; eassumption.
Qed.

Lemma X14_witness :
  added_hosts
    (journal (snd (parse 3 true [] (Examples.with_strategy "vm_id" false)
                     (fresh Examples.three_pages))))
  = ([] ++ ["i-1"; "i-2"; "i-3"; "i-4"])%list.
Proof.
  refine (@X14_one_add_host_per_usable_record_in_order Script MemInventory _ _
            3 [] (Examples.with_strategy "vm_id" false)
            (fresh Examples.three_pages)
            (snd (fetch_vms 3 (gateway_params (read_options [] (Examples.with_strategy "vm_id" false)))
                    [] (fresh Examples.three_pages)))
            (snd (parse 3 true [] (Examples.with_strategy "vm_id" false)
                    (fresh Examples.three_pages)))
            (records_of Examples.three_pages) _ _ _).
  - simpl. auto.
  - vm_compute. reflexivity.
  - vm_compute. reflexivity.
Defined.

(** ** Sanitised values *)

Lemma sanitized_clean (c : ascii) :
  sanitized c <> ":"%char /\ sanitized c <> "/"%char /\ sanitized c <> " "%char.
Proof.
  unfold sanitized.
  destruct (Ascii.eqb_spec c ":"); [simpl; repeat split; discriminate|].
  destruct (Ascii.eqb_spec c "/"); [simpl; repeat split; discriminate|].
  destruct (Ascii.eqb_spec c " "); [simpl; repeat split; discriminate|].
  simpl. auto.
Qed.

Lemma replace_absent (old new : ascii) (s : string) :
  (forall n c, String.get n s = Some c -> c <> old) -> replace old new s = s.
Proof.
  induction s as [|c s IH]; intros Hs; simpl; auto.
  destruct (Ascii.eqb_spec c old) as [->|Hc].
  - exfalso. now apply (Hs 0 old).
  - f_equal. apply IH. intros n c' Hget. apply (Hs (S n)). exact Hget.
Qed.

(** X15. A sanitised value holds no [":"], ["/"] or [" "] at all, and
    sanitising it once more changes nothing; a [None] value sanitises to the
    empty string, so that its group is named ["tag_"], the key and ["_"]. *)
Theorem X15_safe_value_is_clean_and_stable (value : pyval) :
  (forall n c,
      String.get n (safe_value value) = Some c ->
      c <> ":"%char /\ c <> "/"%char /\ c <> " "%char)
  /\ safe_value (PStr (safe_value value)) = safe_value value
  /\ safe_value PNone = EmptyString
  /\ forall key, tag_group_name key PNone = "tag_" ++ key ++ "_".
Proof.
  assert (Hclean : forall n c,
             String.get n (safe_value value) = Some c ->
             c <> ":"%char /\ c <> "/"%char /\ c <> " "%char).
  { intros n c. rewrite safe_value_get.
    destruct (String.get n (str (py_or value (PStr EmptyString)))) as [c'|];
      simpl; [|discriminate].
    intros H. injection H as <-. apply sanitized_clean. }
  split; [exact Hclean|]. split; [|split; [reflexivity|]].
  - assert (Hstr : str (py_or (PStr (safe_value value)) (PStr EmptyString))
                   = safe_value value).
    { unfold py_or. simpl.
      destruct (String.eqb_spec (safe_value value) EmptyString) as [->|]; reflexivity. }
    unfold safe_value at 1. rewrite Hstr.
    rewrite (@replace_absent ":" "_" (safe_value value))
      by (intros n c Hget; now apply Hclean in Hget).
    rewrite (@replace_absent "/" "_" (safe_value value))
      by (intros n c Hget; now apply Hclean in Hget).
    apply replace_absent. intros n c Hget. now apply Hclean in Hget.
  - intros key. unfold tag_group_name. reflexivity.
Qed.

(** ** The keys of the flattened tags *)

Section FlattenKeys.
Let step (d : dict pyval) (tag : Tag) : dict pyval :=
  match Value tag with
  | Some v => dict_set (Key tag) v d
  | None => d
  end.

Lemma dict_set_keys_In (d : dict pyval) (k k' : string) (v : pyval) :
  In k' (dict_keys (dict_set k v d)) <-> k' = k \/ In k' (dict_keys d).
Proof.
  rewrite dict_keys_set.
  destruct (existsb (String.eqb k) (dict_keys d)) eqn:E.
  - apply existsb_exists in E. destruct E as (x & Hx & Heq).
    apply String.eqb_eq in Heq. subst x. split; auto. intros [->|H]; auto.
  - rewrite in_app_iff. simpl. intuition.
Qed.

Lemma dict_set_length (d : dict pyval) (k : string) (v : pyval) :
  length (dict_set k v d) <= S (length d).
Proof.
  induction d as [|[k' v'] d IH]; simpl; auto.
  destruct (k' =? k); simpl; lia.
Qed.

Lemma fold_step_keys (tags : list Tag) :
  forall acc k,
    In k (dict_keys (fold_left step tags acc))
    <-> In k (dict_keys acc)
        \/ exists tag v, In tag tags /\ Key tag = k /\ Value tag = Some v.
Proof.
  induction tags as [|t tags IH]; intros acc k; simpl.
  - split; auto. intros [H|(tag & v & [] & _)]. exact H.
  - rewrite IH. unfold step. split.
    + intros [Hin|(tag & v & Hin & Hk & Hv)].
      * destruct (Value t) as [v|] eqn:Ev; auto.
        apply dict_set_keys_In in Hin. destruct Hin as [->|Hin]; auto.
        right. exists t, v. auto.
      * right. exists tag, v. auto.
    + intros [Hin|(tag & v & [->|Hin] & Hk & Hv)].
      * left. destruct (Value t); auto. apply dict_set_keys_In. auto.
      * left. rewrite Hv. apply dict_set_keys_In. auto.
      * right. exists tag, v. auto.
Qed.

Lemma fold_step_length (tags : list Tag) :
  forall acc, length (fold_left step tags acc) <= length acc + length tags.
Proof.
  induction tags as [|t tags IH]; intros acc; simpl; [lia|].
  specialize (IH (step acc t)). unfold step in *.
  destruct (Value t) as [v|]; [pose proof (dict_set_length acc (Key t) v)|]; lia.
Qed.
End FlattenKeys.

(** X16. The flattened tags hold every key once; a key is there exactly
    when some tag of the list carries it with a value; so a record with N
    tags has at most N entries.  A run of the "tags" dimension that
    returns has made exactly two inventory calls per entry. *)
Theorem X16_flattened_keys_are_the_valued_keys_once
    {C Inv : Type} {cloud_ops : Cloud C} {inventory_ops : Inventory Inv}
    (vm : Vm) (hostname : string) :
  NoDup (dict_keys (flatten_tags (Tags vm)))
  /\ (forall k,
         In k (dict_keys (flatten_tags (Tags vm)))
         <-> exists tag v, In tag (Tags vm) /\ Key tag = k /\ Value tag = Some v)
  /\ length (flatten_tags (Tags vm)) <= length (Tags vm)
  /\ (forall st st' : state C Inv,
         group_by_tags vm hostname st = (Ok tt, st') ->
         length (journal st')
         = length (journal st) + 2 * length (flatten_tags (Tags vm))).
Proof.
  split; [apply flatten_tags_NoDup|]. split; [|split].
  - intros k. unfold flatten_tags.
    rewrite (fold_step_keys (Tags vm) [] k). simpl. tauto.
  - apply (fold_step_length (Tags vm) []).
  - intros st st' Hrun.
    assert (Hj : @journals C Inv (group_by_tags vm hostname) (tag_joins vm hostname)).
    { unfold group_by_tags, tag_joins. apply journals_for_each.
      intros item. apply journals_join. }
    destruct (Hj st) as [inv E]. rewrite E in Hrun. injection Hrun as <-. simpl.
    rewrite length_app. f_equal. unfold tag_joins.
    induction (flatten_tags (Tags vm)) as [|item d IH]; simpl; auto.
    rewrite IH. lia.
Qed.

Lemma X16_witness :
  length (journal (snd (group_by_tags Examples.web1 "web:1" (fresh []))))
  = 0 + 2 * 1.
Proof.
  refine (proj2 (proj2 (proj2
            (@X16_flattened_keys_are_the_valued_keys_once Script MemInventory _ _
               Examples.web1 "web:1")))
            (fresh []) (snd (group_by_tags Examples.web1 "web:1" (fresh []))) _).
  vm_compute. reflexivity.
Defined.

(** ** Where the credentials come from *)

(** X17. For each of [access_key] and [secret_key] a truthy value in the
    configuration wins over the environment, and the environment variable
    is used when the configuration has the key absent, null or empty.  Once
    the credentials check has passed the gateway is always built with both
    keys: the two guards before [Gateway] never leave one out. *)
Theorem X17_credentials_prefer_configuration
    (env : Env) (config : Config) :
  (truthy (get (cfg_access_key config)) = true ->
   access_key (read_options env config) = get (cfg_access_key config))
  /\ (truthy (get (cfg_access_key config)) = false ->
      access_key (read_options env config) = os_getenv "OSC_ACCESS_KEY" env)
  /\ (truthy (get (cfg_secret_key config)) = true ->
      secret_key (read_options env config) = get (cfg_secret_key config))
  /\ (truthy (get (cfg_secret_key config)) = false ->
      secret_key (read_options env config) = os_getenv "OSC_SECRET_KEY" env)
  /\ (negb (truthy (access_key (read_options env config)))
      || negb (truthy (secret_key (read_options env config))) = false ->
      gw_access_key (gateway_params (read_options env config))
      = Some (access_key (read_options env config))
      /\ gw_secret_key (gateway_params (read_options env config))
         = Some (secret_key (read_options env config))).
Proof.
  split; [|split; [|split; [|split]]];
    try (intros H; simpl; unfold py_or; now rewrite H).
  intros H. apply orb_false_elim in H. destruct H as [Ha Hs].
  apply negb_false_iff in Ha. apply negb_false_iff in Hs.
  unfold gateway_params, truthy_only. cbn [gw_access_key gw_secret_key].
  now rewrite Ha, Hs.
Qed.

Lemma X17_witness :
  access_key (read_options [("OSC_ACCESS_KEY", "ENV-AK"); ("OSC_SECRET_KEY", "ENV-SK")]
                (mkConfig (Some (PStr "AK")) (Some (PStr EmptyString)) None None None
                   None None None None None None))
  = PStr "AK"
  /\ secret_key (read_options [("OSC_ACCESS_KEY", "ENV-AK"); ("OSC_SECRET_KEY", "ENV-SK")]
                   (mkConfig (Some (PStr "AK")) (Some (PStr EmptyString)) None None None
                      None None None None None None))
     = PStr "ENV-SK".
Proof.
  split.
  - refine (proj1 (X17_credentials_prefer_configuration
                     [("OSC_ACCESS_KEY", "ENV-AK"); ("OSC_SECRET_KEY", "ENV-SK")]
                     (mkConfig (Some (PStr "AK")) (Some (PStr EmptyString)) None None None
                        None None None None None None)) _).
    reflexivity.
  - refine (proj1 (proj2 (proj2 (proj2 (X17_credentials_prefer_configuration
                     [("OSC_ACCESS_KEY", "ENV-AK"); ("OSC_SECRET_KEY", "ENV-SK")]
                     (mkConfig (Some (PStr "AK")) (Some (PStr EmptyString)) None None None
                        None None None None None None))))) _).
    reflexivity.
Defined.
